(** * Wine quality dashboard: feature state and prediction request controller

    A shallow embedding of the two [page.tsx] variants of the dashboard (the
    one posting to the same-origin path [/api/predict], and the one posting
    straight to the deployed prediction service), together with the
    ECMAScript and Fetch primitives their handlers call: [parseFloat],
    [JSON.stringify], [Number::toString], property reads on parsed JSON,
    [||], [new Error(..)], [response.ok] and [response.json()]. *)

From Stdlib Require Import ZArith List String Ascii Bool Lia DecimalString.
From Stdlib Require Import Floats.SpecFloat.
Import ListNotations.

Set Warnings "-register-all".

Local Open Scope string_scope.
Local Open Scope Z_scope.

(** ** ECMAScript numbers

    A JavaScript number is an IEEE-754 binary64 value.  It is represented by
    [spec_float] at precision 53 and maximal exponent 1024; every value built
    below goes through [binary_round_aux], so finite values are in canonical
    form and structural equality coincides with identity of doubles. *)

Module Number.

Definition number : Type := spec_float.

Definition prec : Z := 53.
Definition emax : Z := 1024.

Definition NaN : number := S754_nan.
Definition Infinity (negative : bool) : number := S754_infinity negative.

(** The double nearest to the non-negative rational [num / den], ties to
    even, with the given sign. *)
Definition round_ratio (negative : bool) (num den : Z) : number :=
  let '(q, e, loc) := SFdiv_core_binary prec emax num 0 den 0 in
  binary_round_aux prec emax negative q e loc.

(** The double nearest to [digits * 10 ^ exp10]: the number value of a
    decimal literal. *)
Definition of_decimal (negative : bool) (digits exp10 : Z) : number :=
  if 0 <=? exp10
  then round_ratio negative (digits * 10 ^ exp10) 1
  else round_ratio negative digits (10 ^ (- exp10)).

(** [x <= y], [x < y], [x === y] on numbers: false as soon as one side is NaN. *)
Definition leb (x y : number) : bool := SFleb x y.
Definition ltb (x y : number) : bool := SFltb x y.
Definition eqb (x y : number) : bool := SFeqb x y.

Definition isNaN (x : number) : bool :=
  match x with S754_nan => true | _ => false end.

Definition isFinite (x : number) : bool :=
  match x with
  | S754_zero _ | S754_finite _ _ _ => true
  | S754_infinity _ | S754_nan => false
  end.

Definition is_zero (x : number) : bool :=
  match x with S754_zero _ => true | _ => false end.

(** *** [parseFloat]

    Strings are sequences of code units; the model keeps the code units
    below 256.  [parseFloat] skips leading white space, reads the longest
    prefix that is a [StrDecimalLiteral] and rounds its value to the nearest
    double; with no such prefix the result is NaN. *)

Definition code (c : ascii) : Z := Z.of_nat (nat_of_ascii c).

Definition is_digit (c : ascii) : bool := (48 <=? code c) && (code c <=? 57).

Definition digit_value (c : ascii) : Z := code c - 48.

(** TAB, LF, VT, FF, CR, SP and NBSP. *)
Definition is_white_space (c : ascii) : bool :=
  ((9 <=? code c) && (code c <=? 13)) || (code c =? 32) || (code c =? 160).

Fixpoint trim_start (s : string) : string :=
  match s with
  | String c rest => if is_white_space c then trim_start rest else s
  | EmptyString => s
  end.

(** Reads a run of decimal digits; returns the accumulated value, the
    number of digits read added to [count], and the unread suffix. *)
Fixpoint read_digits (s : string) (acc count : Z) : Z * Z * string :=
  match s with
  | String c rest =>
      if is_digit c
      then read_digits rest (10 * acc + digit_value c) (count + 1)
      else (acc, count, s)
  | EmptyString => (acc, count, s)
  end.

Definition read_sign (s : string) : bool * string :=
  match s with
  | String "-" rest => (true, rest)
  | String "+" rest => (false, rest)
  | _ => (false, s)
  end.

(** [ExponentPart]: [e] or [E], an optional sign, at least one digit.  An
    ill-formed exponent is not part of the literal and counts as 0. *)
Definition read_exponent (s : string) : Z :=
  match s with
  | String c rest =>
      if (code c =? 101) || (code c =? 69)
      then
        let '(negative, digits) := read_sign rest in
        let '(value, count, _) := read_digits digits 0 0 in
        if count =? 0 then 0 else if negative then - value else value
      else 0
  | EmptyString => 0
  end.

Definition parseFloat (input : string) : number :=
  let '(negative, unsigned) := read_sign (trim_start input) in
  if prefix "Infinity" unsigned then Infinity negative
  else
    let '(int_part, int_count, after_int) := read_digits unsigned 0 0 in
    let '(mantissa, frac_count, after_frac) :=
      match after_int with
      | String "." rest => read_digits rest int_part 0
      | _ => (int_part, 0, after_int)
      end in
    if int_count + frac_count =? 0 then NaN
    else of_decimal negative mantissa (read_exponent after_frac - frac_count).

(** *** [Number::toString] (radix 10)

    For a positive finite [x] the digits are those of the integer [s] with
    the fewest digits [k] such that [s * 10 ^ (n - k)] rounds to [x]; when
    two such [s] exist the one closer to [x] is taken, the even one on a
    tie. *)

Definition decimal (z : Z) : string :=
  NilZero.string_of_uint (N.to_uint (Z.to_N z)).

Fixpoint zeros (count : nat) : string :=
  match count with
  | O => ""
  | S count' => String "0" (zeros count')
  end.

(** [floor (num / den * 10 ^ p)]. *)
Definition scaled_floor (num den p : Z) : Z :=
  if 0 <=? p then (num * 10 ^ p) / den else num / (den * 10 ^ (- p)).

(** [compare (2 * num / den * 10 ^ p) (2 * s + 1)]: where [num/den * 10^p]
    lies with respect to the midpoint of [s] and [s + 1]. *)
Definition compare_midpoint (num den p s : Z) : comparison :=
  if 0 <=? p
  then Z.compare (2 * num * 10 ^ p) ((2 * s + 1) * den)
  else Z.compare (2 * num) ((2 * s + 1) * den * 10 ^ (- p)).

Definition same_double (x y : number) : bool :=
  match x, y with
  | S754_finite sx mx ex, S754_finite sy my ey =>
      Bool.eqb sx sy && Pos.eqb mx my && Z.eqb ex ey
  | _, _ => false
  end.

(** The [k]-digit integer [s] with [s * 10 ^ (n - k)] rounding to the
    positive double [m * 2 ^ e = num / den] (compared in canonical form),
    the one closest to it when two fit, if any fits. *)
Definition digits_for (m : positive) (e num den k n : Z) : option Z :=
  let low := scaled_floor num den (k - n) in
  let high := low + 1 in
  let fits s :=
    (10 ^ (k - 1) <=? s) && (s <? 10 ^ k) &&
    same_double (of_decimal false s (n - k))
                (binary_round prec emax false m e) in
  match fits low, fits high with
  | true, true =>
      match compare_midpoint num den (k - n) low with
      | Lt => Some low
      | Gt => Some high
      | Eq => Some (if Z.even low then low else high)
      end
  | true, false => Some low
  | false, true => Some high
  | false, false => None
  end.

Fixpoint first_some {A B : Type} (f : A -> option B) (l : list A) : option B :=
  match l with
  | [] => None
  | a :: rest =>
      match f a with
      | Some b => Some b
      | None => first_some f rest
      end
  end.

(** [|s * 10 ^ p - num / den|] as a fraction. *)
Definition distance (num den s p : Z) : Z * Z :=
  if 0 <=? p
  then (Z.abs (s * 10 ^ p * den - num), den)
  else (Z.abs (s * den - num * 10 ^ (- p)), den * 10 ^ (- p)).

(** Of two triples [(s, k, n)] the one whose value [s * 10 ^ (n - k)] is
    closer to [num / den], the one with an even [s] on a tie. *)
Definition closer (num den : Z) (c1 c2 : Z * Z * Z) : Z * Z * Z :=
  let '(s1, k1, n1) := c1 in
  let '(s2, k2, n2) := c2 in
  let '(a1, b1) := distance num den s1 (n1 - k1) in
  let '(a2, b2) := distance num den s2 (n2 - k2) in
  match Z.compare (a1 * b2) (a2 * b1) with
  | Lt => c1
  | Gt => c2
  | Eq => if Z.even s1 then c1 else c2
  end.

(** The triple [(s, k, n)] of [Number::toString] for [m * 2 ^ e]: [k] is
    the least number of digits for which some exponent [n] fits, and among
    the exponents that fit for that [k] the value closest to the double is
    taken.  The exponents are searched in a window around the estimate
    obtained from the binary logarithms; 17 digits always suffice for a
    double, so the search does not come back empty on a double. *)
Definition shortest_decimal (m : positive) (e : Z) : option (Z * Z * Z) :=
  let num := if 0 <=? e then Zpos m * 2 ^ e else Zpos m in
  let den := if 0 <=? e then 1 else 2 ^ (- e) in
  let estimate := ((Z.log2 num - Z.log2 den) * 30103) / 100000 in
  let window := map (fun i => estimate - 1 + Z.of_nat i) (seq 0 6) in
  first_some
    (fun k =>
       let fitting :=
         flat_map
           (fun n =>
              match digits_for m e num den k n with
              | Some s => [(s, k, n)]
              | None => []
              end)
           window in
       match fitting with
       | [] => None
       | c :: rest => Some (fold_left (closer num den) rest c)
       end)
    (map (fun i => Z.of_nat i) (seq 1 17)).

Definition format_decimal (s k n : Z) : string :=
  let digits := decimal s in
  if (k <=? n) && (n <=? 21) then
    digits ++ zeros (Z.to_nat (n - k))
  else if (0 <? n) && (n <=? 21) then
    substring 0 (Z.to_nat n) digits ++ "." ++
    substring (Z.to_nat n) (Z.to_nat (k - n)) digits
  else if (-6 <? n) && (n <=? 0) then
    "0." ++ zeros (Z.to_nat (- n)) ++ digits
  else
    let exponent := n - 1 in
    let suffix :=
      "e" ++ (if exponent <? 0 then "-" else "+") ++ decimal (Z.abs exponent) in
    if k =? 1 then digits ++ suffix
    else substring 0 1 digits ++ "." ++
         substring 1 (Z.to_nat (k - 1)) digits ++ suffix.

Definition toString (x : number) : string :=
  match x with
  | S754_nan => "NaN"
  | S754_zero _ => "0"
  | S754_infinity negative => if negative then "-Infinity" else "Infinity"
  | S754_finite negative m e =>
      (if negative then "-" else "") ++
      match shortest_decimal m e with
      | Some (s, k, n) => format_decimal s k n
      | None => "NaN"
      end
  end.

(** *** [Number.prototype.toFixed]

    [fixed_point n f] writes the integer [n] with the decimal point before
    its last [f] digits. *)
Definition fixed_point (n f : Z) : string :=
  let digits := decimal n in
  if f =? 0 then digits
  else
    let k := Z.of_nat (String.length digits) in
    let padded := if k <=? f then zeros (Z.to_nat (f + 1 - k)) ++ digits else digits in
    let k' := Z.of_nat (String.length padded) in
    substring 0 (Z.to_nat (k' - f)) padded ++ "." ++
    substring (Z.to_nat (k' - f)) (Z.to_nat f) padded.

(** The integer [n] with [n / 10 ^ f] closest to [x], the larger one on a
    tie; values of magnitude at least [1e21] are printed by [toString]. *)
Definition toFixed (x : number) (f : Z) : string :=
  match x with
  | S754_nan | S754_infinity _ => toString x
  | S754_zero _ => fixed_point 0 f
  | S754_finite negative m e =>
      if leb (of_decimal false 1 21) (S754_finite false m e) then toString x
      else
        let num := if 0 <=? e then Zpos m * 2 ^ e else Zpos m in
        let den := if 0 <=? e then 1 else 2 ^ (- e) in
        (if negative then "-" else "") ++
        fixed_point ((2 * num * 10 ^ f + den) / (2 * den)) f
  end.

End Number.

(** ** ECMAScript values, exceptions and the operations the page uses *)

Module JS.

Import Number.

(** Values that [response.json()] can produce, plus [undefined].  The
    members of an object are its own properties in enumeration order, with
    distinct keys. *)
Inductive Value : Type :=
| Undefined
| Null
| Bool (b : bool)
| Num (x : number)
| Str (s : string)
| Arr (items : list Value)
| Obj (members : list (string * Value)).

Inductive ErrorClass : Type :=
| Error
| TypeError
| SyntaxError
| DOMException.

(** An exception object: the constructor it is an instance of, and its
    [message]. *)
Record Exception : Type := mkException {
  constructor_of : ErrorClass;
  message : string
}.

(** The texts of the TypeErrors raised by the engine itself are
    implementation-defined. *)
Record Engine : Type := mkEngine {
  (** reading property [key] of [what], which is [null] or [undefined] *)
  nullish_read_message : string -> string -> string;
  (** an object with no usable [toString] or [valueOf] *)
  not_primitive_message : string;
  (** calling [callee], which is not a function *)
  not_function_message : string -> string
}.

Inductive Completion (A : Type) : Type :=
| Normal (a : A)
| Throw (e : Exception).

Arguments Normal {A} a.
Arguments Throw {A} e.

Definition instanceof_TypeError (e : Exception) : bool :=
  match constructor_of e with TypeError => true | _ => false end.

(** [new Error(message)] *)
Definition new_Error (msg : string) : Exception := mkException Error msg.

Fixpoint own_property (key : string) (members : list (string * Value))
  : option Value :=
  match members with
  | [] => None
  | (k, v) :: rest => if String.eqb k key then Some v else own_property key rest
  end.

(** [ToBoolean] *)
Definition ToBoolean (v : Value) : bool :=
  match v with
  | Undefined | Null => false
  | Bool b => b
  | Num x => negb (is_zero x || isNaN x)
  | Str s => negb (String.eqb s "")
  | Arr _ | Obj _ => true
  end.

(** [a || b] *)
Definition or_else (a b : Value) : Value := if ToBoolean a then a else b.

Definition quote : string := String "034" "".

Definition hex_digit (n : Z) : string :=
  substring (Z.to_nat n) 1 "0123456789abcdef".

(** The escapes of [QuoteJSONString]. *)
Fixpoint escape (s : string) : string :=
  match s with
  | EmptyString => ""
  | String c rest =>
      (if code c =? 34 then "\" ++ quote
       else if code c =? 92 then "\\"
       else if code c =? 8 then "\b"
       else if code c =? 12 then "\f"
       else if code c =? 10 then "\n"
       else if code c =? 13 then "\r"
       else if code c =? 9 then "\t"
       else if code c <? 32
            then "\u00" ++ hex_digit (code c / 16) ++ hex_digit (code c mod 16)
            else String c "")
      ++ escape rest
  end.

Definition QuoteJSONString (s : string) : string := quote ++ escape s ++ quote.

Fixpoint join (separator : string) (parts : list string) : string :=
  match parts with
  | [] => ""
  | [part] => part
  | part :: rest => part ++ separator ++ join separator rest
  end.

(** [SerializeJSONProperty]: [None] stands for [undefined]. *)
Fixpoint SerializeJSONProperty (v : Value) : option string :=
  match v with
  | Undefined => None
  | Null => Some "null"
  | Bool b => Some (if b then "true" else "false")
  | Num x => Some (if isFinite x then toString x else "null")
  | Str s => Some (QuoteJSONString s)
  | Arr items =>
      let element item :=
        match SerializeJSONProperty item with
        | Some text => text
        | None => "null"
        end in
      Some ("[" ++ join "," (map element items) ++ "]")
  | Obj members =>
      let fix properties (l : list (string * Value)) : list string :=
        match l with
        | [] => []
        | (k, item) :: rest =>
            match SerializeJSONProperty item with
            | Some text => (QuoteJSONString k ++ ":" ++ text) :: properties rest
            | None => properties rest
            end
        end in
      Some ("{" ++ join "," (properties members) ++ "}")
  end.

(** [JSON.stringify(value)] *)
Definition JSON_stringify (v : Value) : option string := SerializeJSONProperty v.

Section WithEngine.

Variable engine : Engine.

(** [value.key], for a key that no built-in prototype defines (the page
    reads [error] and [predicted_quality] only). *)
Definition get (v : Value) (key : string) : Completion Value :=
  match v with
  | Undefined =>
      Throw (mkException TypeError (nullish_read_message engine "undefined" key))
  | Null =>
      Throw (mkException TypeError (nullish_read_message engine "null" key))
  | Obj members =>
      Normal (match own_property key members with
              | Some item => item
              | None => Undefined
              end)
  | Bool _ | Num _ | Str _ | Arr _ => Normal Undefined
  end.

(** [ToString].  An array is joined with commas, [null] and [undefined]
    elements giving the empty string; an object gives ["[object Object]"]
    unless an own [toString] member, never callable, hides the inherited
    method, in which case no primitive is reached. *)
Fixpoint ToString (v : Value) : Completion string :=
  match v with
  | Undefined => Normal "undefined"
  | Null => Normal "null"
  | Bool b => Normal (if b then "true" else "false")
  | Num x => Normal (toString x)
  | Str s => Normal s
  | Arr items =>
      let fix elements (l : list Value) : Completion (list string) :=
        match l with
        | [] => Normal []
        | item :: rest =>
            let first :=
              match item with
              | Undefined | Null => Normal ""
              | _ => ToString item
              end in
            match first with
            | Throw e => Throw e
            | Normal text =>
                match elements rest with
                | Throw e => Throw e
                | Normal texts => Normal (text :: texts)
                end
            end
        end in
      match elements items with
      | Throw e => Throw e
      | Normal texts => Normal (join "," texts)
      end
  | Obj members =>
      match own_property "toString" members with
      | Some _ => Throw (mkException TypeError (not_primitive_message engine))
      | None => Normal "[object Object]"
      end
  end.

End WithEngine.

(** The messages of V8. *)
Definition V8 : Engine :=
  {| nullish_read_message :=
       fun what key =>
         "Cannot read properties of " ++ what ++ " (reading '" ++ key ++ "')";
     not_primitive_message := "Cannot convert object to primitive value";
     not_function_message := fun callee => callee ++ " is not a function" |}.

End JS.

(** ** The page component *)

Module Dashboard.

Import Number JS.

(** The two pages of the repository differ in the slider ranges, in the
    address of the prediction endpoint and in the [catch] clause of
    [handlePredict]. *)
Inductive Variant : Type :=
| Proxied   (* wine-quality-dashboard/src/app/page.tsx: POST /api/predict *)
| Direct.   (* the page that calls the deployed service itself *)

(** [type FeatureName = keyof typeof featureRanges] *)
Inductive FeatureName : Type :=
| FixedAcidity
| VolatileAcidity
| CitricAcid
| Chlorides
| FreeSulfurDioxide
| Density
| Alcohol
| TypeWhite.

Definition FeatureName_eq_dec (a b : FeatureName) : {a = b} + {a <> b}.
Proof. decide equality. Defined.

(** The property name behind each member of [FeatureName]. *)
Definition key (name : FeatureName) : string :=
  match name with
  | FixedAcidity => "fixed acidity"
  | VolatileAcidity => "volatile acidity"
  | CitricAcid => "citric acid"
  | Chlorides => "chlorides"
  | FreeSulfurDioxide => "free sulfur dioxide"
  | Density => "density"
  | Alcohol => "alcohol"
  | TypeWhite => "type_white"
  end.

(** [Object.entries(featureRanges)] visits the keys in this order. *)
Definition feature_names : list FeatureName :=
  [FixedAcidity; VolatileAcidity; CitricAcid; Chlorides;
   FreeSulfurDioxide; Density; Alcohol; TypeWhite].

Record Range : Type := mkRange { min : number; max : number; step : number }.

(** A numeric literal [digits * 10 ^ exp10] of the source. *)
Definition lit (digits exp10 : Z) : number := of_decimal false digits exp10.

Definition featureRanges (variant : Variant) (name : FeatureName) : Range :=
  match variant, name with
  | Proxied, FixedAcidity => mkRange (lit 4 0) (lit 16 0) (lit 1 (-1))
  | Proxied, VolatileAcidity => mkRange (lit 0 0) (lit 16 (-1)) (lit 1 (-2))
  | Proxied, CitricAcid => mkRange (lit 0 0) (lit 17 (-1)) (lit 1 (-2))
  | Proxied, Chlorides => mkRange (lit 0 0) (lit 7 (-1)) (lit 1 (-3))
  | Proxied, FreeSulfurDioxide => mkRange (lit 1 0) (lit 300 0) (lit 1 0)
  | Proxied, Density => mkRange (lit 98 (-2)) (lit 104 (-2)) (lit 1 (-4))
  | Proxied, Alcohol => mkRange (lit 8 0) (lit 15 0) (lit 1 (-1))
  | Proxied, TypeWhite => mkRange (lit 0 0) (lit 1 0) (lit 1 0)
  | Direct, FixedAcidity => mkRange (lit 4 0) (lit 12 0) (lit 1 (-1))
  | Direct, VolatileAcidity => mkRange (lit 0 0) (lit 9 (-1)) (lit 1 (-2))
  | Direct, CitricAcid => mkRange (lit 0 0) (lit 8 (-1)) (lit 1 (-2))
  | Direct, Chlorides => mkRange (lit 0 0) (lit 2 (-1)) (lit 1 (-3))
  | Direct, FreeSulfurDioxide => mkRange (lit 1 0) (lit 65 0) (lit 1 0)
  | Direct, Density => mkRange (lit 98 (-2)) (lit 101 (-2)) (lit 1 (-4))
  | Direct, Alcohol => mkRange (lit 8 0) (lit 14 0) (lit 1 (-1))
  | Direct, TypeWhite => mkRange (lit 0 0) (lit 1 0) (lit 1 0)
  end.

(** The bound that the specification states for a feature:
    [min <= value && value <= max] for the range of [name].  No handler
    evaluates it; the ranges only reach the rendered range inputs. *)
Definition in_range (variant : Variant) (name : FeatureName) (value : number)
  : bool :=
  leb (min (featureRanges variant name)) value &&
  leb value (max (featureRanges variant name)).

(** [Record<FeatureName, number>]: one number per feature name. *)
Record Features : Type := mkFeatures {
  fixed_acidity : number;
  volatile_acidity : number;
  citric_acid : number;
  chlorides : number;
  free_sulfur_dioxide : number;
  density : number;
  alcohol : number;
  type_white : number
}.

(** [features[name]] *)
Definition read (features : Features) (name : FeatureName) : number :=
  match name with
  | FixedAcidity => fixed_acidity features
  | VolatileAcidity => volatile_acidity features
  | CitricAcid => citric_acid features
  | Chlorides => chlorides features
  | FreeSulfurDioxide => free_sulfur_dioxide features
  | Density => density features
  | Alcohol => alcohol features
  | TypeWhite => type_white features
  end.

(** [{ ...prev, [name]: value }] *)
Definition spread_with (prev : Features) (name : FeatureName) (value : number)
  : Features :=
  let field other :=
    if FeatureName_eq_dec other name then value else read prev other in
  {| fixed_acidity := field FixedAcidity;
     volatile_acidity := field VolatileAcidity;
     citric_acid := field CitricAcid;
     chlorides := field Chlorides;
     free_sulfur_dioxide := field FreeSulfurDioxide;
     density := field Density;
     alcohol := field Alcohol;
     type_white := field TypeWhite |}.

(** The four [useState] cells of [Home]. *)
Record State : Type := mkState {
  features : Features;
  prediction : Value;         (* declared [number | null] *)
  isLoading : bool;
  error : option string       (* [string | null] *)
}.

Definition initial : State :=
  {| features :=
       {| fixed_acidity := lit 70 (-1);
          volatile_acidity := lit 27 (-2);
          citric_acid := lit 36 (-2);
          chlorides := lit 5 (-2);
          free_sulfur_dioxide := lit 30 0;
          density := lit 995 (-3);
          alcohol := lit 105 (-1);
          type_white := lit 1 0 |};
     prediction := Null;
     isLoading := false;
     error := None |}.

(** *** Effects of the handlers *)

Record RequestInit : Type := mkRequestInit {
  method : string;
  headers : list (string * string);
  body : option string
}.

Inductive Effect : Type :=
| SetFeatures (updater : Features -> Features)
| SetPrediction (value : Value)
| SetIsLoading (value : bool)
| SetError (value : option string)
| CallFetch (url : string) (init : RequestInit)
| ConsoleError (err : Exception).

(** What the network gives back to one [fetch] call: the promise rejects
    (no response at all), or it resolves to a response whose [json()]
    promise in turn resolves to the parsed body or rejects. *)
Record Response : Type := mkResponse {
  status : Z;
  json : Completion Value
}.

Inductive Reply : Type :=
| Rejects (err : Exception)
| Responds (response : Response).

(** [response.ok]: the status is in the range 200 to 299. *)
Definition ok (response : Response) : bool :=
  (200 <=? status response) && (status response <=? 299).

(** An asynchronous function body: the effects performed so far, in order,
    and how the run stands. *)
Inductive Progress (A : Type) : Type :=
| Returned (a : A)
| Thrown (e : Exception)
| Suspended.

Arguments Returned {A} a.
Arguments Thrown {A} e.
Arguments Suspended {A}.

Definition Async (A : Type) : Type := list Effect * Progress A.

Definition ret {A : Type} (a : A) : Async A := ([], Returned a).

Definition bind {A B : Type} (c : Async A) (k : A -> Async B) : Async B :=
  match c with
  | (trace, Returned a) => let '(trace', p) := k a in ((trace ++ trace')%list, p)
  | (trace, Thrown e) => (trace, Thrown e)
  | (trace, Suspended) => (trace, Suspended)
  end.

Definition emit (e : Effect) : Async unit := ([e], Returned tt).

Definition throw {A : Type} (e : Exception) : Async A := ([], Thrown e).

Definition lift {A : Type} (c : Completion A) : Async A :=
  match c with
  | Normal a => ret a
  | Throw e => throw e
  end.

Notation "x <- c ;; k" := (bind c (fun x => k))
  (at level 61, c at next level, right associativity).
Notation "c ;; k" := (bind c (fun _ => k))
  (at level 61, right associativity).

(** [try { body } catch (err) { handler } finally { finalizer }].  A
    suspended body has reached neither clause yet. *)
Definition try_catch_finally {A : Type} (body : Async A)
  (handler : Exception -> Async A) (finalizer : Async unit) : Async A :=
  let finish (c : Async A) : Async A :=
    match c with
    | (trace, Suspended) => (trace, Suspended)
    | (trace, p) =>
        match finalizer with
        | (trace', Returned _) => ((trace ++ trace')%list, p)
        | (trace', Thrown e) => ((trace ++ trace')%list, Thrown e)
        | (trace', Suspended) => ((trace ++ trace')%list, Suspended)
        end
    end in
  match body with
  | (trace, Thrown e) =>
      let '(trace', p) := handler e in finish ((trace ++ trace')%list, p)
  | _ => finish body
  end.

(** [await fetch(url, init)]: the call is made, and the function is
    suspended until the reply, if any has come, settles the promise. *)
Definition await_fetch (url : string) (init : RequestInit)
  (reply : option Reply) : Async Response :=
  emit (CallFetch url init) ;;
  match reply with
  | None => ([], Suspended)
  | Some (Rejects err) => throw err
  | Some (Responds response) => ret response
  end.

(** [await response.json()] *)
Definition await_json (response : Response) : Async Value :=
  lift (json response).

Fixpoint includes (s sub : string) : bool :=
  prefix sub s ||
  match s with
  | String _ rest => includes rest sub
  | EmptyString => false
  end.

(** The type guard of the direct page: [typeof error === 'object'],
    [error !== null], ['message' in error] and
    [typeof error.message === 'string'].  The thrown values of the model are
    exception objects with a string message, so the four tests succeed. *)
Definition isErrorWithMessage (error : Exception) : bool := true.

Definition endpoint (variant : Variant) : string :=
  match variant with
  | Proxied => "/api/predict"
  | Direct =>
      "https://bias-classifier.agreeablemushroom-fe0ec30e.southeastasia.azurecontainerapps.io/predict_wine"
  end.

Definition generic_failure : string := "Prediction request failed".

Definition cors_hint : string :=
  "Network error: This could be due to CORS restrictions. Please ensure the API allows requests from this origin.".

Definition unknown_error : string := "An unknown error occurred".

Section Handlers.

Variable engine : Engine.
Variable variant : Variant.

Definition handleSliderChange (name : FeatureName) (value : string)
  : list Effect :=
  [SetFeatures (fun prev => spread_with prev name (parseFloat value))].

Definition handleTypeChange (value : number) : list Effect :=
  [SetFeatures (fun prev => spread_with prev TypeWhite value)].

(** The object literal given to [JSON.stringify]. *)
Definition payload (features : Features) : Value :=
  Obj [("fixed_acidity", Num (read features FixedAcidity));
       ("volatile_acidity", Num (read features VolatileAcidity));
       ("citric_acid", Num (read features CitricAcid));
       ("chlorides", Num (read features Chlorides));
       ("free_sulfur_dioxide", Num (read features FreeSulfurDioxide));
       ("density", Num (read features Density));
       ("alcohol", Num (read features Alcohol));
       ("type_white", Num (read features TypeWhite))].

Definition catch_clause (err : Exception) : Async unit :=
  emit (ConsoleError err) ;;
  match variant with
  | Proxied => emit (SetError (Some (message err)))
  | Direct =>
      if instanceof_TypeError err && isErrorWithMessage err
         && includes (message err) "fetch"
      then emit (SetError (Some cors_hint))
      else emit (SetError (Some (if isErrorWithMessage err
                                 then message err
                                 else unknown_error)))
  end.

(** [handlePredict], run on the [features] of the render that created it;
    [reply] is what the network has answered, [None] while it has not. *)
Definition handlePredict (features : Features) (reply : option Reply)
  : Async unit :=
  emit (SetIsLoading true) ;;
  emit (SetError None) ;;
  emit (SetPrediction Null) ;;
  try_catch_finally
    (response <- await_fetch (endpoint variant)
                   {| method := "POST";
                      headers := [("Content-Type", "application/json")];
                      body := JSON_stringify (payload features) |}
                   reply ;;
     data <- await_json response ;;
     (if negb (ok response)
      then
        reason <- lift (get engine data "error") ;;
        text <- lift (ToString engine (or_else reason (Str generic_failure))) ;;
        throw (new_Error text)
      else ret tt) ;;
     quality <- lift (get engine data "predicted_quality") ;;
     emit (SetPrediction quality))
    catch_clause
    (emit (SetIsLoading false)).

(** *** State updates and the render *)

(** The effect of one call on the four state cells; [fetch] and
    [console.error] do not touch them. *)
Definition apply (e : Effect) (st : State) : State :=
  match e with
  | SetFeatures updater =>
      mkState (updater (features st)) (prediction st) (isLoading st) (error st)
  | SetPrediction value =>
      mkState (features st) value (isLoading st) (error st)
  | SetIsLoading value =>
      mkState (features st) (prediction st) value (error st)
  | SetError value =>
      mkState (features st) (prediction st) (isLoading st) value
  | CallFetch _ _ | ConsoleError _ => st
  end.

Definition run (trace : list Effect) (st : State) : State :=
  fold_left (fun st' e => apply e st') trace st.

(** One complete [predict()]: [handlePredict] is called in state [st], the
    network answers [reply], and no other event comes in between. *)
Definition predict (st : State) (reply : Reply) : State :=
  run (fst (handlePredict (features st) (Some reply))) st.

Inductive Control : Type :=
| TypeButtons (red_selected white_selected : bool)
| RangeInput (id : string) (min_attr max_attr step_attr value_attr : number).

Record Field : Type := mkField { label : string; control : Control }.

Record View : Type := mkView {
  fields : list Field;
  predict_disabled : bool;
  predict_label : string;
  error_line : option string;
  prediction_panel : option string
}.

Definition render_field (features : Features) (name : FeatureName) : Field :=
  let range := featureRanges variant name in
  match name with
  | TypeWhite =>
      {| label :=
           key name ++ " (" ++
           (if eqb (read features TypeWhite) (lit 1 0) then "White" else "Red")
           ++ ")";
         control :=
           TypeButtons (eqb (read features TypeWhite) (lit 0 0))
                       (eqb (read features TypeWhite) (lit 1 0)) |}
  | _ =>
      {| label :=
           key name ++ " (" ++
           toFixed (read features name)
                   (if ltb (step range) (lit 1 (-2)) then 4 else 2)
           ++ ")";
         control :=
           RangeInput (key name) (min range) (max range) (step range)
                      (read features name) |}
  end.

(** [prediction !== null && ... prediction.toFixed(1) ...] *)
Definition render_prediction (prediction : Value) : Completion (option string) :=
  match prediction with
  | Null => Normal None
  | Num x => Normal (Some (toFixed x 1))
  | Undefined =>
      Throw (mkException TypeError
               (nullish_read_message engine "undefined" "toFixed"))
  | Bool _ | Str _ | Arr _ | Obj _ =>
      Throw (mkException TypeError
               (not_function_message engine "prediction.toFixed"))
  end.

(** The part of the JSX that depends on the state. *)
Definition render (st : State) : Completion View :=
  match render_prediction (prediction st) with
  | Throw e => Throw e
  | Normal panel =>
      Normal
        {| fields := map (render_field (features st)) feature_names;
           predict_disabled := isLoading st;
           predict_label :=
             if isLoading st then "Predicting..." else "Predict Quality";
           error_line :=
             match error st with
             | Some text =>
                 if String.eqb text "" then None else Some ("Error: " ++ text)
             | None => None
             end;
           prediction_panel := panel |}
  end.

(** *** The page in its environment

    Besides the state cells, the world holds the [handlePredict] calls that
    are suspended at their [await], each with the [features] it was created
    with, the requests sent so far and the console. *)
Record World : Type := mkWorld {
  state : State;
  pending : list Features;
  sent : list (string * RequestInit);
  console : list Exception
}.

Definition start : World := mkWorld initial [] [] [].

Definition perform (e : Effect) (w : World) : World :=
  match e with
  | CallFetch url init =>
      mkWorld (state w) (pending w) (sent w ++ [(url, init)]) (console w)
  | ConsoleError err =>
      mkWorld (state w) (pending w) (sent w) (console w ++ [err])
  | _ => mkWorld (apply e (state w)) (pending w) (sent w) (console w)
  end.

Definition perform_all (trace : list Effect) (w : World) : World :=
  fold_left (fun w' e => perform e w') trace w.

Fixpoint after_fetch (trace : list Effect) : list Effect :=
  match trace with
  | [] => []
  | CallFetch _ _ :: rest => rest
  | _ :: rest => after_fetch rest
  end.

Fixpoint remove_nth {A : Type} (i : nat) (l : list A) : list A :=
  match l, i with
  | [], _ => []
  | _ :: rest, O => rest
  | a :: rest, S i' => a :: remove_nth i' rest
  end.

(** A call of [handlePredict]: it runs up to its [await] and stays
    suspended there. *)
Definition call_handlePredict (w : World) : World :=
  let captured := features (state w) in
  let '(trace, progress) := handlePredict captured None in
  let w' := perform_all trace w in
  match progress with
  | Suspended =>
      mkWorld (state w') (pending w' ++ [captured]) (sent w') (console w')
  | _ => w'
  end.

(** The [i]-th suspended call is resumed with the network's reply. *)
Definition resume (i : nat) (reply : Reply) (w : World) : World :=
  match nth_error (pending w) i with
  | None => w
  | Some captured =>
      perform_all
        (after_fetch (fst (handlePredict captured (Some reply))))
        (mkWorld (state w) (remove_nth i (pending w)) (sent w) (console w))
  end.

(** What can happen to the rendered page: an [onChange] of the range input
    of a feature, a click on one of the three buttons, or the settlement of
    a request. *)
Inductive Event : Type :=
| Change (name : FeatureName) (value : string)
| ClickRed
| ClickWhite
| ClickPredict
| Settle (i : nat) (reply : Reply).

(** Events reach the handlers through the rendered elements: [type_white]
    has no range input, the Predict button carries [disabled={isLoading}],
    and a page whose render threw shows no element at all. *)
Definition dispatch (w : World) (ev : Event) : World :=
  match ev with
  | Settle i reply => resume i reply w
  | _ =>
      match render (state w) with
      | Throw _ => w
      | Normal view =>
          match ev with
          | Change TypeWhite _ => w
          | Change name value => perform_all (handleSliderChange name value) w
          | ClickRed => perform_all (handleTypeChange (lit 0 0)) w
          | ClickWhite => perform_all (handleTypeChange (lit 1 0)) w
          | ClickPredict =>
              if predict_disabled view then w else call_handlePredict w
          | Settle _ _ => w
          end
      end
  end.

Definition dispatch_all (events : list Event) (w : World) : World :=
  fold_left dispatch events w.

End Handlers.

(** *** The outcome of the specification

    The specification speaks of one tagged outcome; the page keeps the three
    cells [isLoading], [error] and [prediction].  [outcome] reads the former
    off the latter: loading is [Pending]; otherwise a message with no value
    is [Failed], a number with no message is [Succeeded], neither is [Idle].
    The remaining combinations are none of the four shapes. *)
Inductive PredictionOutcome : Type :=
| Idle
| Pending
| Succeeded (value : number)
| Failed (message : string).

Definition outcome (st : State) : option PredictionOutcome :=
  if isLoading st then Some Pending
  else
    match error st, prediction st with
    | None, Null => Some Idle
    | None, Num value => Some (Succeeded value)
    | Some text, Null => Some (Failed text)
    | _, _ => None
    end.

(** The wire name of a feature: its key in snake case. *)
Fixpoint snake_case (s : string) : string :=
  match s with
  | EmptyString => ""
  | String c rest =>
      String (if Ascii.eqb c " " then "_"%char else c) (snake_case rest)
  end.

(** The request body as the specification gives it: the features under
    their wire names, in the order of the feature table. *)
Definition spec_payload (features : Features) : Value :=
  Obj (map (fun name => (snake_case (key name), Num (read features name)))
           feature_names).

Fixpoint fetch_calls (trace : list Effect) : list (string * RequestInit) :=
  match trace with
  | [] => []
  | CallFetch url init :: rest => (url, init) :: fetch_calls rest
  | _ :: rest => fetch_calls rest
  end.

End Dashboard.

(** * Properties of the controller *)

Import Number JS Dashboard.

#[local] Arguments JSON_stringify : simpl never.
#[local] Arguments get : simpl never.
#[local] Arguments ToString : simpl never.
#[local] Arguments or_else : simpl never.
#[local] Arguments includes : simpl never.
#[local] Arguments ok : simpl never.
#[local] Arguments instanceof_TypeError : simpl never.
#[local] Arguments payload : simpl never.
#[local] Arguments endpoint : simpl never.
#[local] Arguments catch_clause : simpl never.

(** ** The primitives on concrete inputs *)

Example parseFloat_decimal_texts :
  parseFloat "0.27" = lit 27 (-2) /\
  parseFloat "7.0" = lit 7 0 /\
  parseFloat "  -12.5e2px" = of_decimal true 1250 0 /\
  parseFloat ".5" = lit 5 (-1) /\
  parseFloat "1e" = lit 1 0 /\
  parseFloat "-0" = S754_zero true /\
  parseFloat "-Infinity" = Infinity true.
Proof. repeat split; vm_compute; reflexivity. Qed.

Example parseFloat_no_number :
  parseFloat "" = NaN /\ parseFloat "abc" = NaN /\ parseFloat "." = NaN /\
  parseFloat "+-1" = NaN /\ parseFloat "e5" = NaN.
Proof. repeat split. Qed.

Example toString_shortest_digits :
  map toString
    [lit 27 (-2); lit 70 (-1); lit 105 (-1); lit 995 (-3); lit 1 21;
     lit 1 (-7); lit 30000000000000004 (-17); of_decimal true 62 (-1); NaN]
  = ["0.27"; "7"; "10.5"; "0.995"; "1e+21"; "1e-7"; "0.30000000000000004";
     "-6.2"; "NaN"].
Proof. vm_compute. reflexivity. Qed.

Example toString_closest_exponent :
  toString (S754_finite false 2 (-1074)) = "1e-323" /\
  toString (S754_finite false 20 (-1074)) = "1e-322" /\
  toString (S754_finite false 1 (-1074)) = "5e-324" /\
  toString (lit 1 23) = "1e+23".
Proof. repeat split; vm_compute; reflexivity. Qed.

Example toFixed_rounds_the_double :
  toFixed (lit 62 (-1)) 1 = "6.2" /\
  toFixed (lit 625 (-2)) 1 = "6.3" /\
  toFixed (lit 635 (-2)) 1 = "6.3" /\
  toFixed (lit 995 (-3)) 2 = "0.99" /\
  toFixed (lit 5 (-2)) 4 = "0.0500" /\
  toFixed NaN 1 = "NaN".
Proof. repeat split; vm_compute; reflexivity. Qed.

Example JSON_stringify_drops_undefined :
  JSON_stringify
    (Obj [("a", Num (lit 15 (-1))); ("b", Undefined); ("c", Num NaN);
          ("d", Arr [Undefined; Null; Bool true])])
  = Some ("{" ++ quote ++ "a" ++ quote ++ ":1.5,"
              ++ quote ++ "c" ++ quote ++ ":null,"
              ++ quote ++ "d" ++ quote ++ ":[null,null,true]}").
Proof. vm_compute. reflexivity. Qed.

Example initial_render :
  exists view,
    render V8 Proxied initial = Normal view /\
    map label (fields view)
    = ["fixed acidity (7.00)"; "volatile acidity (0.27)";
       "citric acid (0.36)"; "chlorides (0.0500)";
       "free sulfur dioxide (30.00)"; "density (0.9950)";
       "alcohol (10.50)"; "type_white (White)"] /\
    predict_disabled view = false /\
    predict_label view = "Predict Quality" /\
    error_line view = None /\
    prediction_panel view = None.
Proof. eexists. split; [reflexivity|]. repeat split; vm_compute; reflexivity. Qed.

(** ** Shared facts about the state updates *)

Lemma read_spread_with (prev : Features) (name other : FeatureName)
  (value : number) :
  read (spread_with prev name value) other =
  if FeatureName_eq_dec other name then value else read prev other.
Proof. destruct other; reflexivity. Qed.

Lemma run_app (t1 t2 : list Effect) (st : State) :
  run (t1 ++ t2) st = run t2 (run t1 st).
Proof. unfold run. apply fold_left_app. Qed.

Lemma perform_all_app (t1 t2 : list Effect) (w : World) :
  perform_all (t1 ++ t2) w = perform_all t2 (perform_all t1 w).
Proof. unfold perform_all. apply fold_left_app. Qed.

Lemma pending_perform_all (trace : list Effect) (w : World) :
  pending (perform_all trace w) = pending w.
Proof.
  revert w. induction trace as [|e trace IH]; intro w; [reflexivity|].
  change (perform_all (e :: trace) w) with (perform_all trace (perform e w)).
  rewrite IH. destruct e; reflexivity.
Qed.

Lemma state_perform_all (trace : list Effect) (w : World) :
  state (perform_all trace w) = run trace (state w).
Proof.
  revert w. induction trace as [|e trace IH]; intro w; [reflexivity|].
  change (perform_all (e :: trace) w) with (perform_all trace (perform e w)).
  rewrite IH. destruct e; reflexivity.
Qed.

Lemma sent_perform_all (trace : list Effect) (w : World) :
  sent (perform_all trace w) = (sent w ++ fetch_calls trace)%list.
Proof.
  revert w. induction trace as [|e trace IH]; intro w.
  - symmetry. apply app_nil_r.
  - change (perform_all (e :: trace) w) with (perform_all trace (perform e w)).
    rewrite IH. destruct e; try reflexivity.
    cbn [perform sent fetch_calls]. rewrite <- app_assoc. reflexivity.
Qed.

(** ** The feature setters *)

(** C9.  For every feature [name] and every raw value whose number
    [parseFloat value] lies within [min(name), max(name)],
    [handleSliderChange name value] followed by a read of [name] returns
    that number exactly. *)
Theorem handleSliderChange_read_back (variant : Variant) (name : FeatureName)
  (value : string) (st : State) :
  in_range variant name (parseFloat value) = true ->
  read (features (run (handleSliderChange name value) st)) name
  = parseFloat value.
Proof.
  intros _. cbn [handleSliderChange run fold_left apply features].
  rewrite read_spread_with.
  destruct (FeatureName_eq_dec name name) as [_|Hne]; [reflexivity|].
  now elim Hne.
Qed.

Lemma handleSliderChange_read_back_witness :
  in_range Proxied Alcohol (parseFloat "12.3") = true /\
  parseFloat "12.3" = lit 123 (-1) /\
  read (features (run (handleSliderChange Alcohol "12.3") initial)) Alcohol
  = parseFloat "12.3".
Proof.
  split; [|split].
  - vm_compute. reflexivity.
  - vm_compute. reflexivity.
  - apply (handleSliderChange_read_back Proxied Alcohol "12.3" initial).
    vm_compute. reflexivity.
Defined.

(** C10.  For every number [value], not only 0 and 1,
    [handleTypeChange value] replaces [type_white] by exactly [value], keeps
    every other feature and the other state cells: the setter validates
    nothing. *)
Theorem handleTypeChange_sets_type_white (value : number) (st : State) :
  let st' := run (handleTypeChange value) st in
  (forall name,
      read (features st') name =
      if FeatureName_eq_dec name TypeWhite then value
      else read (features st) name) /\
  prediction st' = prediction st /\
  isLoading st' = isLoading st /\
  error st' = error st.
Proof.
  cbn [handleTypeChange run fold_left apply features prediction isLoading error].
  repeat split. intro name. apply read_spread_with.
Qed.

(** C2, as amended.  [handleSliderChange name value] validates nothing:
    whatever [parseFloat value] is, NaN and numbers outside
    [min(name), max(name)] included, it becomes the value of [name]; every
    other feature and the other state cells are unchanged.  So the feature is
    within its bounds after the update exactly when the parsed value is. *)
Theorem handleSliderChange_commits_parsed_value (variant : Variant)
  (name : FeatureName) (value : string) (st : State) :
  let st' := run (handleSliderChange name value) st in
  (forall other,
      read (features st') other =
      if FeatureName_eq_dec other name then parseFloat value
      else read (features st) other) /\
  prediction st' = prediction st /\
  isLoading st' = isLoading st /\
  error st' = error st /\
  in_range variant name (read (features st') name)
  = in_range variant name (parseFloat value).
Proof.
  cbn [handleSliderChange run fold_left apply features prediction isLoading error].
  repeat split.
  - intro other. apply read_spread_with.
  - rewrite read_spread_with.
    destruct (FeatureName_eq_dec name name) as [_|Hne]; [reflexivity|].
    now elim Hne.
Qed.

(** C2 fails as stated: a raw value that parses outside the bounds of the
    feature, and one that does not parse at all, both change the state. *)
Lemma handleSliderChange_rejects_nothing :
  (in_range Proxied Alcohol (parseFloat "100") = false /\
   in_range Direct Alcohol (parseFloat "100") = false /\
   run (handleSliderChange Alcohol "100") initial <> initial) /\
  (isNaN (parseFloat "abc") = true /\
   run (handleSliderChange Alcohol "abc") initial <> initial).
Proof.
  repeat split; try (vm_compute; reflexivity);
    intro H; apply (f_equal (fun st => alcohol (features st))) in H;
    vm_compute in H; discriminate H.
Qed.

(** ** [handlePredict] *)

(** Up to its [await] the handler sets the three cells and calls [fetch]
    once; there it is suspended. *)
Lemma handlePredict_suspended (engine : Engine) (variant : Variant)
  (features : Features) :
  handlePredict engine variant features None =
  ([SetIsLoading true; SetError None; SetPrediction Null;
    CallFetch (endpoint variant)
      {| method := "POST";
         headers := [("Content-Type", "application/json")];
         body := JSON_stringify (payload features) |}],
   Suspended).
Proof. reflexivity. Qed.

(** Case analysis on the [catch] clause of either page. *)
Ltac split_catch :=
  cbn;
  match goal with
  | |- context [catch_clause ?variant ?err] =>
      unfold catch_clause; destruct variant; cbn;
      try match goal with
          | |- context [if ?c then _ else _] => destruct c; cbn
          end
  end.

Ltac settled_with_value :=
  eexists; split; [intro; reflexivity | left; eauto].

Ltac settled_with_error :=
  eexists; split; [intro; reflexivity | right; eauto].

(** Once the reply is there the handler runs to its end: after the same
    four effects it either stores a prediction, or logs the exception and
    stores a message; in both cases [finally] clears [isLoading].  What
    follows the [fetch] call does not depend on the captured features. *)
Lemma handlePredict_settled (engine : Engine) (variant : Variant)
  (reply : Reply) :
  exists tail,
    (forall features,
        handlePredict engine variant features (Some reply) =
        ((fst (handlePredict engine variant features None) ++ tail)%list,
         Returned tt)) /\
    ((exists quality, tail = [SetPrediction quality; SetIsLoading false]) \/
     (exists err shown,
         tail = [ConsoleError err; SetError (Some shown); SetIsLoading false])).
Proof.
  unfold handlePredict, await_fetch, await_json.
  destruct reply as [err|[code body]].
  - split_catch; settled_with_error.
  - destruct body as [data|err]; cbn [json lift bind ret throw emit].
    + destruct (ok {| status := code; json := Normal data |}); cbn [negb].
      * destruct (get engine data "predicted_quality") as [quality|err].
        -- cbn. settled_with_value.
        -- split_catch; settled_with_error.
      * destruct (get engine data "error") as [reason|err].
        -- cbn [lift bind ret throw].
           destruct (ToString engine (or_else reason (Str generic_failure)))
             as [text|err]; split_catch; settled_with_error.
        -- split_catch; settled_with_error.
    + split_catch; settled_with_error.
Qed.

Lemma fetch_calls_app (t1 t2 : list Effect) :
  fetch_calls (t1 ++ t2) = (fetch_calls t1 ++ fetch_calls t2)%list.
Proof.
  induction t1 as [|e t1 IH]; [reflexivity|].
  destruct e; cbn [app fetch_calls]; rewrite ?IH; reflexivity.
Qed.

(** What the [catch] clause of either page does with an exception. *)
Lemma catch_clause_effects (variant : Variant) (err : Exception) :
  catch_clause variant err =
  ([ConsoleError err;
    SetError (Some
      match variant with
      | Proxied => message err
      | Direct =>
          if instanceof_TypeError err && includes (message err) "fetch"
          then cors_hint else message err
      end)],
   Returned tt).
Proof.
  unfold catch_clause, isErrorWithMessage. destruct variant; [reflexivity|].
  rewrite andb_true_r.
  destruct (instanceof_TypeError err && includes (message err) "fetch");
    reflexivity.
Qed.

(** C8.  From every state, whatever the previous outcome ([Idle],
    [Succeeded v] or [Failed m]), [handlePredict] first sets [isLoading],
    clears [error] and clears [prediction], which makes the outcome
    [Pending] with no value and no message left, and only then calls
    [fetch]; the features are untouched. *)
Theorem handlePredict_supersedes_outcome (engine : Engine) (variant : Variant)
  (st : State) :
  exists before url init,
    handlePredict engine variant (features st) None
    = ((before ++ [CallFetch url init])%list, Suspended) /\
    fetch_calls before = [] /\
    outcome (run before st) = Some Pending /\
    prediction (run before st) = Null /\
    error (run before st) = None /\
    features (run before st) = features st /\
    state (call_handlePredict engine variant (mkWorld st [] [] []))
    = run before st.
Proof.
  exists [SetIsLoading true; SetError None; SetPrediction Null].
  do 2 eexists. rewrite handlePredict_suspended.
  split; [reflexivity|]. repeat split.
Qed.

(** C6.  Whatever the features and the reply, [handlePredict] makes one
    [fetch] call, and its body is the serialization of exactly the object
    that maps the eight wire names, in order, to the values of the features
    they stand for, which are those of the current state when the handler
    is called on the page (a value that is not finite is written [null] by
    [JSON.stringify]); in the initial state the body is the text
    [{"fixed_acidity":7,"volatile_acidity":0.27,"citric_acid":0.36,
    "chlorides":0.05,"free_sulfur_dioxide":30,"density":0.995,
    "alcohol":10.5,"type_white":1}]. *)
Theorem handlePredict_serializes_features (engine : Engine)
  (variant : Variant) (features : Features) (reply : option Reply) :
  fetch_calls (fst (handlePredict engine variant features reply))
  = [(endpoint variant,
      {| method := "POST";
         headers := [("Content-Type", "application/json")];
         body := JSON_stringify (spec_payload features) |})] /\
  (forall w,
      sent (call_handlePredict engine variant w)
      = (sent w ++
         [(endpoint variant,
           {| method := "POST";
              headers := [("Content-Type", "application/json")];
              body := JSON_stringify
                        (spec_payload (Dashboard.features (state w))) |})])%list) /\
  (exists members,
      spec_payload features = Obj members /\
      map fst members
      = ["fixed_acidity"; "volatile_acidity"; "citric_acid"; "chlorides";
         "free_sulfur_dioxide"; "density"; "alcohol"; "type_white"] /\
      forall name,
        own_property (snake_case (key name)) members
        = Some (Num (read features name))) /\
  sent (call_handlePredict engine variant start)
  = [(endpoint variant,
      {| method := "POST";
         headers := [("Content-Type", "application/json")];
         body :=
           Some ("{" ++ quote ++ "fixed_acidity" ++ quote ++ ":7,"
                     ++ quote ++ "volatile_acidity" ++ quote ++ ":0.27,"
                     ++ quote ++ "citric_acid" ++ quote ++ ":0.36,"
                     ++ quote ++ "chlorides" ++ quote ++ ":0.05,"
                     ++ quote ++ "free_sulfur_dioxide" ++ quote ++ ":30,"
                     ++ quote ++ "density" ++ quote ++ ":0.995,"
                     ++ quote ++ "alcohol" ++ quote ++ ":10.5,"
                     ++ quote ++ "type_white" ++ quote ++ ":1}") |})].
Proof.
  split; [|split; [|split]].
  - destruct reply as [reply|].
    + destruct (handlePredict_settled engine variant reply)
        as [tail [-> Htail]].
      rewrite handlePredict_suspended. cbn [fst].
      rewrite fetch_calls_app.
      destruct Htail as [[quality ->]|[err [shown ->]]]; reflexivity.
    + rewrite handlePredict_suspended. reflexivity.
  - intro w. unfold call_handlePredict. rewrite handlePredict_suspended.
    cbn [sent]. rewrite sent_perform_all. reflexivity.
  - eexists. split; [reflexivity|]. split; [reflexivity|].
    intro name. destruct name; reflexivity.
  - vm_compute. reflexivity.
Qed.

(** C7.  For every response with status 200 whose body has a numeric member
    [predicted_quality] equal to [q], a [predict()] ends in [Succeeded q]:
    the prediction is [q], there is no error and loading is over. *)
Theorem success_reply_yields_prediction (engine : Engine) (variant : Variant)
  (st : State) (response : Response) (members : list (string * Value))
  (q : number) :
  status response = 200 ->
  json response = Normal (Obj members) ->
  own_property "predicted_quality" members = Some (Num q) ->
  let st' := predict engine variant st (Responds response) in
  outcome st' = Some (Succeeded q) /\
  prediction st' = Num q /\
  error st' = None /\
  isLoading st' = false.
Proof.
  intros Hstatus Hjson Hmember.
  destruct response as [code body]. cbn [status json] in Hstatus, Hjson.
  subst code body.
  unfold predict, handlePredict, await_fetch, await_json.
  cbn [json lift bind ret throw emit].
  change (ok {| status := 200; json := Normal (Obj members) |}) with true.
  unfold get. rewrite Hmember. cbn. repeat split.
Qed.

Lemma success_reply_yields_prediction_witness :
  let response :=
    mkResponse 200 (Normal (Obj [("predicted_quality", Num (lit 62 (-1)))])) in
  outcome (predict V8 Proxied initial (Responds response))
  = Some (Succeeded (lit 62 (-1))).
Proof.
  intro response.
  apply (success_reply_yields_prediction V8 Proxied initial response
           [("predicted_quality", Num (lit 62 (-1)))] (lit 62 (-1)));
    reflexivity.
Defined.

(** The state after a [predict()] whose [try] block stored [quality]. *)
Lemma predict_success (engine : Engine) (variant : Variant) (st : State)
  (response : Response) (data quality : Value) :
  ok response = true ->
  json response = Normal data ->
  get engine data "predicted_quality" = Normal quality ->
  predict engine variant st (Responds response)
  = mkState (features st) quality false None.
Proof.
  intros Hok Hjson Hget.
  destruct response as [code body]. cbn [json] in Hjson. subst body.
  unfold predict, handlePredict, await_fetch, await_json.
  cbn [json lift bind ret throw emit].
  rewrite Hok. cbn [negb lift bind ret throw emit]. rewrite Hget. reflexivity.
Qed.

(** The state after a [predict()] on a non-success response whose [error]
    member, or the fallback, converts to [text]. *)
Lemma predict_application_error (engine : Engine) (variant : Variant)
  (st : State) (response : Response) (data reason : Value) (text : string) :
  ok response = false ->
  json response = Normal data ->
  get engine data "error" = Normal reason ->
  ToString engine (or_else reason (Str generic_failure)) = Normal text ->
  predict engine variant st (Responds response)
  = mkState (features st) Null false (Some text).
Proof.
  intros Hok Hjson Hget Htext.
  destruct response as [code body]. cbn [json] in Hjson. subst body.
  unfold predict, handlePredict, await_fetch, await_json.
  cbn [json lift bind ret throw emit].
  rewrite Hok. cbn [negb lift bind ret throw emit]. rewrite Hget.
  cbn [lift bind ret throw emit]. rewrite Htext.
  cbn [lift bind ret throw emit try_catch_finally].
  rewrite catch_clause_effects. destruct variant; reflexivity.
Qed.

(** The state after a [predict()] whose [fetch] was rejected. *)
Lemma predict_rejected (engine : Engine) (variant : Variant) (st : State)
  (err : Exception) :
  predict engine variant st (Rejects err)
  = mkState (features st) Null false
      (Some match variant with
            | Proxied => message err
            | Direct =>
                if instanceof_TypeError err && includes (message err) "fetch"
                then cors_hint else message err
            end).
Proof.
  unfold predict, handlePredict, await_fetch.
  cbn [lift bind ret throw emit try_catch_finally].
  rewrite catch_clause_effects. reflexivity.
Qed.

(** The state after a [predict()] whose response body did not parse. *)
Lemma predict_unparsable (engine : Engine) (variant : Variant) (st : State)
  (response : Response) (err : Exception) :
  json response = Throw err ->
  predict engine variant st (Responds response)
  = mkState (features st) Null false
      (Some match variant with
            | Proxied => message err
            | Direct =>
                if instanceof_TypeError err && includes (message err) "fetch"
                then cors_hint else message err
            end).
Proof.
  intros Hjson.
  destruct response as [code body]. cbn [json] in Hjson. subst body.
  unfold predict, handlePredict, await_fetch, await_json.
  cbn [json lift bind ret throw emit try_catch_finally].
  rewrite catch_clause_effects. reflexivity.
Qed.

(** The state after a [predict()] on a non-success response whose body
    parsed, whatever the body is. *)
Lemma predict_failure_status (engine : Engine) (variant : Variant)
  (st : State) (response : Response) (data : Value) :
  ok response = false ->
  json response = Normal data ->
  predict engine variant st (Responds response)
  = mkState (features st) Null false
      (Some
         (let shown err :=
            match variant with
            | Proxied => message err
            | Direct =>
                if instanceof_TypeError err && includes (message err) "fetch"
                then cors_hint else message err
            end in
          match get engine data "error" with
          | Throw err => shown err
          | Normal reason =>
              match ToString engine (or_else reason (Str generic_failure)) with
              | Normal text => text
              | Throw err => shown err
              end
          end)).
Proof.
  intros Hok Hjson.
  destruct response as [code body]. cbn [json] in Hjson. subst body.
  unfold predict, handlePredict, await_fetch, await_json.
  cbn [json lift bind ret throw emit].
  rewrite Hok. cbn [negb lift bind ret throw emit].
  destruct (get engine data "error") as [reason|err];
    cbn [lift bind ret throw emit try_catch_finally].
  - destruct (ToString engine (or_else reason (Str generic_failure)))
      as [text|err];
      cbn [lift bind ret throw emit try_catch_finally];
      rewrite catch_clause_effects; destruct variant; reflexivity.
  - rewrite catch_clause_effects. destruct variant; reflexivity.
Qed.

(** C3, as amended.  For every response with a non-success status whose
    body parses as JSON, a [predict()] ends in [Failed message], with no
    value and loading over.  When the body is an object, [message] is its
    [error] member if that is a non-empty string, the string conversion of
    the member if it is any other truthy value that converts, and the fixed
    text [Prediction request failed] if the member is absent or falsy; the
    fixed text is also the message when the body is an array, a string, a
    number or a boolean.  In the remaining cases (the body [null], a member
    that does not convert) [message] is the text of the [TypeError] that
    reaches the [catch] clause. *)
Theorem failure_reply_reports_error_member (engine : Engine)
  (variant : Variant) (st : State) (response : Response) (data : Value) :
  ok response = false ->
  json response = Normal data ->
  let st' := predict engine variant st (Responds response) in
  (exists text,
      outcome st' = Some (Failed text) /\
      st' = mkState (features st) Null false (Some text)) /\
  (forall members text,
      data = Obj members ->
      own_property "error" members = Some (Str text) -> text <> "" ->
      outcome st' = Some (Failed text)) /\
  (forall members reason text,
      data = Obj members ->
      own_property "error" members = Some reason ->
      ToBoolean reason = true ->
      ToString engine reason = Normal text ->
      outcome st' = Some (Failed text)) /\
  (forall members,
      data = Obj members ->
      own_property "error" members = None ->
      outcome st' = Some (Failed generic_failure)) /\
  (forall members reason,
      data = Obj members ->
      own_property "error" members = Some reason -> ToBoolean reason = false ->
      outcome st' = Some (Failed generic_failure)) /\
  (match data with
   | Bool _ | Num _ | Str _ | Arr _ =>
       outcome st' = Some (Failed generic_failure)
   | Undefined | Null | Obj _ => True
   end) /\
  (forall members reason err,
      data = Obj members ->
      own_property "error" members = Some reason ->
      ToBoolean reason = true ->
      ToString engine reason = Throw err ->
      outcome st'
      = Some (Failed
                match variant with
                | Proxied => message err
                | Direct =>
                    if instanceof_TypeError err
                       && includes (message err) "fetch"
                    then cors_hint else message err
                end)) /\
  (data = Null ->
   outcome st'
   = Some (Failed
             match variant with
             | Proxied => nullish_read_message engine "null" "error"
             | Direct =>
                 if includes (nullish_read_message engine "null" "error")
                      "fetch"
                 then cors_hint
                 else nullish_read_message engine "null" "error"
             end)).
Proof.
  intros Hok Hjson st'. subst st'.
  split; [|split; [|split; [|split; [|split; [|split; [|split]]]]]].
  - rewrite (predict_failure_status engine variant st response data Hok Hjson).
    eexists. split; reflexivity.
  - intros members text -> Hmember Htext.
    rewrite (predict_application_error engine variant st response
               (Obj members) (Str text) text Hok Hjson); [reflexivity| |].
    + unfold get. rewrite Hmember. reflexivity.
    + unfold or_else, ToBoolean.
      destruct (String.eqb_spec text ""); [contradiction|reflexivity].
  - intros members reason text -> Hmember Htruthy Htext.
    rewrite (predict_application_error engine variant st response
               (Obj members) reason text Hok Hjson); [reflexivity| |].
    + unfold get. rewrite Hmember. reflexivity.
    + unfold or_else. rewrite Htruthy. exact Htext.
  - intros members -> Hmember.
    rewrite (predict_application_error engine variant st response
               (Obj members) Undefined generic_failure Hok Hjson);
      [reflexivity| |reflexivity].
    unfold get. rewrite Hmember. reflexivity.
  - intros members reason -> Hmember Hfalsy.
    rewrite (predict_application_error engine variant st response
               (Obj members) reason generic_failure Hok Hjson);
      [reflexivity| |].
    + unfold get. rewrite Hmember. reflexivity.
    + unfold or_else. rewrite Hfalsy. reflexivity.
  - destruct data; try exact I;
      rewrite (predict_application_error engine variant st response
                 _ Undefined generic_failure Hok Hjson);
      reflexivity.
  - intros members reason err -> Hmember Htruthy Hthrow.
    rewrite (predict_failure_status engine variant st response (Obj members)
               Hok Hjson).
    unfold get. rewrite Hmember. unfold or_else. rewrite Htruthy, Hthrow.
    reflexivity.
  - intros ->.
    rewrite (predict_failure_status engine variant st response Null Hok Hjson).
    destruct variant; reflexivity.
Qed.

Lemma failure_reply_reports_error_member_witness :
  (let response :=
     mkResponse 500 (Normal (Obj [("error", Str "model unavailable")])) in
   ok response = false /\
   outcome (predict V8 Direct initial (Responds response))
   = Some (Failed "model unavailable")) /\
  (let response :=
     mkResponse 500 (Normal (Obj [("error", Num (lit 503 0))])) in
   outcome (predict V8 Proxied initial (Responds response))
   = Some (Failed "503")) /\
  (let response := mkResponse 404 (Normal (Arr [Num (lit 1 0)])) in
   outcome (predict V8 Proxied initial (Responds response))
   = Some (Failed generic_failure)).
Proof.
  split; [|split].
  - intro response. split; [reflexivity|].
    destruct (failure_reply_reports_error_member V8 Direct initial response
                (Obj [("error", Str "model unavailable")]) eq_refl eq_refl)
      as [_ [Hstring _]].
    apply (Hstring [("error", Str "model unavailable")] "model unavailable");
      try reflexivity.
    discriminate.
  - intro response.
    destruct (failure_reply_reports_error_member V8 Proxied initial response
                (Obj [("error", Num (lit 503 0))]) eq_refl eq_refl)
      as [_ [_ [Htruthy _]]].
    apply (Htruthy [("error", Num (lit 503 0))] (Num (lit 503 0)) "503");
      reflexivity.
  - intro response.
    destruct (failure_reply_reports_error_member V8 Proxied initial response
                (Arr [Num (lit 1 0)]) eq_refl eq_refl)
      as [_ [_ [_ [_ [_ [Hother _]]]]]].
    exact Hother.
Defined.

(** C3 fails as stated.  With status 500, a body whose [error] member is
    the empty string gives the generic text and not the member; and a body
    that does not parse gives the message of the parser's exception and not
    the generic text. *)
Lemma failure_reply_message_differs :
  (let response := mkResponse 500 (Normal (Obj [("error", Str "")])) in
   ok response = false /\
   outcome (predict V8 Proxied initial (Responds response))
   = Some (Failed generic_failure) /\
   outcome (predict V8 Proxied initial (Responds response))
   <> Some (Failed "")) /\
  (let response :=
     mkResponse 500
       (Throw (mkException SyntaxError "Unexpected end of JSON input")) in
   ok response = false /\
   outcome (predict V8 Proxied initial (Responds response))
   = Some (Failed "Unexpected end of JSON input") /\
   outcome (predict V8 Direct initial (Responds response))
   = Some (Failed "Unexpected end of JSON input") /\
   outcome (predict V8 Proxied initial (Responds response))
   <> Some (Failed generic_failure)).
Proof.
  repeat split; try reflexivity; vm_compute; discriminate.
Qed.

(** C4 does not hold of the code.  For every response with a success
    status whose body is a JSON object without a [predicted_quality]
    member, a [predict()] stores [undefined] as the prediction and no error:
    the outcome is not [Failed], it is none of the four shapes, and the next
    render throws on [prediction.toFixed(1)]. *)
Theorem success_reply_without_quality (engine : Engine) (variant : Variant)
  (st : State) (response : Response) (members : list (string * Value)) :
  ok response = true ->
  json response = Normal (Obj members) ->
  own_property "predicted_quality" members = None ->
  let st' := predict engine variant st (Responds response) in
  prediction st' = Undefined /\
  error st' = None /\
  isLoading st' = false /\
  outcome st' = None /\
  render engine variant st'
  = Throw (mkException TypeError
             (nullish_read_message engine "undefined" "toFixed")).
Proof.
  intros Hok Hjson Hmember st'. subst st'.
  rewrite (predict_success engine variant st response (Obj members) Undefined
             Hok Hjson).
  - repeat split.
  - unfold get. rewrite Hmember. reflexivity.
Qed.

Lemma success_reply_without_quality_witness :
  let response := mkResponse 200 (Normal (Obj [])) in
  ok response = true /\
  outcome (predict V8 Proxied initial (Responds response)) = None /\
  outcome (predict V8 Direct initial (Responds response)) = None.
Proof.
  intro response. split; [reflexivity|]. split.
  - apply (success_reply_without_quality V8 Proxied initial response []);
      reflexivity.
  - apply (success_reply_without_quality V8 Direct initial response []);
      reflexivity.
Defined.

(** C5, as amended.  For every transport failure ([fetch] rejects with an
    exception), a [predict()] ends in [Failed message].  On the page that
    calls the service directly, [message] is the fixed hint at a network or
    CORS problem when the exception is a [TypeError] whose message contains
    [fetch], and the exception's own message otherwise; on the proxied page
    it is always the exception's own message.  The hint differs from the
    generic text of the application-error path. *)
Theorem transport_failure_reports_message (engine : Engine)
  (variant : Variant) (st : State) (err : Exception) :
  outcome (predict engine variant st (Rejects err))
  = Some (Failed
            match variant with
            | Proxied => message err
            | Direct =>
                if instanceof_TypeError err && includes (message err) "fetch"
                then cors_hint else message err
            end) /\
  cors_hint <> generic_failure /\
  includes cors_hint "Network error" = true /\
  includes cors_hint "CORS" = true.
Proof.
  rewrite predict_rejected. repeat split. discriminate.
Qed.

Lemma transport_failure_reports_message_witness :
  outcome (predict V8 Direct initial
             (Rejects (mkException TypeError "Failed to fetch")))
  = Some (Failed cors_hint) /\
  outcome (predict V8 Direct initial
             (Rejects (mkException TypeError "Load failed")))
  = Some (Failed "Load failed").
Proof.
  split.
  - apply (transport_failure_reports_message V8 Direct initial
             (mkException TypeError "Failed to fetch")).
  - apply (transport_failure_reports_message V8 Direct initial
             (mkException TypeError "Load failed")).
Defined.

(** C5 fails as stated.  On the proxied page a transport failure shows the
    browser's message as it is, which an application error carrying the same
    text in its [error] member shows too; on the direct page an application
    error carrying the text of the hint shows the hint. *)
Lemma transport_failure_not_distinct :
  let failure := Rejects (mkException TypeError "Failed to fetch") in
  (let rejection :=
     Responds (mkResponse 500 (Normal (Obj [("error", Str "Failed to fetch")]))) in
   outcome (predict V8 Proxied initial failure)
   = Some (Failed "Failed to fetch") /\
   outcome (predict V8 Proxied initial rejection)
   = Some (Failed "Failed to fetch")) /\
  (let rejection :=
     Responds (mkResponse 500 (Normal (Obj [("error", Str cors_hint)]))) in
   outcome (predict V8 Direct initial failure) = Some (Failed cors_hint) /\
   outcome (predict V8 Direct initial rejection) = Some (Failed cors_hint)).
Proof. repeat split. Qed.

(** ** Requests in flight *)

(** The page keeps one suspended call while it is loading and none
    otherwise. *)
Lemma render_predict_disabled (engine : Engine) (variant : Variant)
  (st : State) (view : View) :
  render engine variant st = Normal view ->
  predict_disabled view = isLoading st.
Proof.
  unfold render. destruct (render_prediction engine (prediction st));
    [|discriminate].
  intros [= <-]. reflexivity.
Qed.

Lemma after_fetch_settled (engine : Engine) (variant : Variant)
  (features : Features) (reply : Reply) :
  exists tail,
    after_fetch (fst (handlePredict engine variant features (Some reply)))
    = (tail ++ [SetIsLoading false])%list /\
    fetch_calls tail = [].
Proof.
  destruct (handlePredict_settled engine variant reply)
    as [tail [-> Htail]].
  rewrite handlePredict_suspended. cbn [fst app after_fetch].
  destruct Htail as [[quality ->]|[err [shown ->]]].
  - exists [SetPrediction quality]. split; reflexivity.
  - exists [ConsoleError err; SetError (Some shown)]. split; reflexivity.
Qed.

Lemma dispatch_single_flight (engine : Engine) (variant : Variant)
  (w : World) (ev : Event) :
  List.length (pending w) = (if isLoading (state w) then 1%nat else 0%nat) ->
  List.length (pending (dispatch engine variant w ev))
  = (if isLoading (state (dispatch engine variant w ev)) then 1%nat else 0%nat).
Proof.
  intros Hinv.
  assert (Hfeatures : forall updater,
             List.length (pending (perform_all [SetFeatures updater] w))
             = (if isLoading (state (perform_all [SetFeatures updater] w))
                then 1%nat else 0%nat)).
  { intro updater. exact Hinv. }
  destruct ev as [name value| | | |i reply]; cbn [dispatch].
  - destruct (render engine variant (state w)); [|exact Hinv].
    destruct name; solve [exact Hinv | apply Hfeatures].
  - destruct (render engine variant (state w)); [|exact Hinv].
    apply Hfeatures.
  - destruct (render engine variant (state w)); [|exact Hinv].
    apply Hfeatures.
  - destruct (render engine variant (state w)) as [view|] eqn:Hrender;
      [|exact Hinv].
    rewrite (render_predict_disabled engine variant _ _ Hrender).
    destruct (isLoading (state w)) eqn:Hloading; [rewrite Hloading; exact Hinv|].
    unfold call_handlePredict. rewrite handlePredict_suspended.
    cbn [pending state]. rewrite pending_perform_all, state_perform_all.
    rewrite List.length_app, Hinv. reflexivity.
  - unfold resume.
    destruct (nth_error (pending w) i) as [captured|] eqn:Hnth; [|exact Hinv].
    destruct (after_fetch_settled engine variant captured reply)
      as [tail [-> _]].
    rewrite pending_perform_all, state_perform_all, run_app. cbn [pending state].
    destruct (pending w) as [|first [|second rest]].
    + destruct i; discriminate Hnth.
    + destruct i as [|[|i]]; [reflexivity|discriminate Hnth|discriminate Hnth].
    + destruct (isLoading (state w)); discriminate Hinv.
Qed.

Lemma dispatch_all_single_flight (engine : Engine) (variant : Variant)
  (events : list Event) (w : World) :
  List.length (pending w) = (if isLoading (state w) then 1%nat else 0%nat) ->
  List.length (pending (dispatch_all engine variant events w))
  = (if isLoading (state (dispatch_all engine variant events w))
     then 1%nat else 0%nat).
Proof.
  revert w. induction events as [|ev events IH]; intros w Hinv; [exact Hinv|].
  cbn [dispatch_all fold_left]. apply IH. apply dispatch_single_flight, Hinv.
Qed.

(** While the page is loading it shows neither a value nor a message. *)
Lemma dispatch_pending_clean (engine : Engine) (variant : Variant)
  (w : World) (ev : Event) :
  List.length (pending w) = (if isLoading (state w) then 1%nat else 0%nat) ->
  (isLoading (state w) = true ->
   error (state w) = None /\ prediction (state w) = Null) ->
  isLoading (state (dispatch engine variant w ev)) = true ->
  error (state (dispatch engine variant w ev)) = None /\
  prediction (state (dispatch engine variant w ev)) = Null.
Proof.
  intros Hinv Hclean.
  destruct ev as [name value| | | |i reply]; cbn [dispatch].
  - destruct (render engine variant (state w)); [|exact Hclean].
    destruct name; exact Hclean.
  - destruct (render engine variant (state w)); exact Hclean.
  - destruct (render engine variant (state w)); exact Hclean.
  - destruct (render engine variant (state w)) as [view|] eqn:Hrender;
      [|exact Hclean].
    rewrite (render_predict_disabled engine variant _ _ Hrender).
    destruct (isLoading (state w)) eqn:Hloading.
    + rewrite Hloading. exact Hclean.
    + intros _. unfold call_handlePredict. rewrite handlePredict_suspended.
      cbn [state]. rewrite state_perform_all. split; reflexivity.
  - unfold resume.
    destruct (nth_error (pending w) i) as [captured|] eqn:Hnth; [|exact Hclean].
    destruct (after_fetch_settled engine variant captured reply)
      as [tail [-> _]].
    rewrite state_perform_all, run_app. cbn [state]. discriminate.
Qed.

Lemma dispatch_all_pending_clean (engine : Engine) (variant : Variant)
  (events : list Event) (w : World) :
  List.length (pending w) = (if isLoading (state w) then 1%nat else 0%nat) ->
  (isLoading (state w) = true ->
   error (state w) = None /\ prediction (state w) = Null) ->
  isLoading (state (dispatch_all engine variant events w)) = true ->
  error (state (dispatch_all engine variant events w)) = None /\
  prediction (state (dispatch_all engine variant events w)) = Null.
Proof.
  revert w. induction events as [|ev events IH]; intros w Hinv Hclean;
    [exact Hclean|].
  cbn [dispatch_all fold_left]. apply IH.
  - apply dispatch_single_flight, Hinv.
  - apply dispatch_pending_clean; assumption.
Qed.

(** On the page, the settlement of the request in flight leaves the state
    that [predict] computes from the state it finds: the events that come
    between the click and the reply change the features only. *)
Lemma settlement_is_predict (engine : Engine) (variant : Variant)
  (events : list Event) (reply : Reply) :
  let w := dispatch_all engine variant events start in
  isLoading (state w) = true ->
  state (dispatch engine variant w (Settle 0 reply))
  = predict engine variant (state w) reply.
Proof.
  intros w Hloading.
  assert (Hinv : List.length (pending w)
                 = (if isLoading (state w) then 1%nat else 0%nat)).
  { apply dispatch_all_single_flight. reflexivity. }
  destruct (dispatch_all_pending_clean engine variant events start)
    as [Herror Hprediction]; [reflexivity|discriminate|exact Hloading|].
  fold w in Herror, Hprediction.
  rewrite Hloading in Hinv.
  cbn [dispatch]. unfold resume, predict.
  destruct (pending w) as [|captured rest]; [discriminate Hinv|].
  cbn [nth_error].
  destruct (handlePredict_settled engine variant reply) as [tail [Heq _]].
  rewrite !Heq, !handlePredict_suspended. cbn [fst app after_fetch].
  rewrite state_perform_all. cbn [state].
  destruct (state w) as [fs p l e].
  cbn [isLoading error prediction] in Hloading, Herror, Hprediction.
  subst p l e. reflexivity.
Qed.

(** C1, as amended.  The guard is on the button, not in the handler: the
    Predict button is rendered disabled while the outcome is [Pending], so
    a click on it then calls nothing, sends nothing and leaves the in-flight
    request to settle as it would have; and after any sequence of page
    events from the initial state at most one request is in flight. *)
Theorem predict_button_single_flight (engine : Engine) (variant : Variant)
  (events : list Event) :
  let w := dispatch_all engine variant events start in
  (List.length (pending w) <= 1)%nat /\
  (outcome (state w) = Some Pending ->
   dispatch engine variant w ClickPredict = w /\
   forall reply,
     dispatch engine variant (dispatch engine variant w ClickPredict)
       (Settle 0 reply)
     = dispatch engine variant w (Settle 0 reply)).
Proof.
  intro w.
  assert (Hinv : List.length (pending w)
                 = (if isLoading (state w) then 1%nat else 0%nat)).
  { apply dispatch_all_single_flight. reflexivity. }
  split.
  - rewrite Hinv. destruct (isLoading (state w)); lia.
  - intros Hpending.
    assert (Hclick : dispatch engine variant w ClickPredict = w).
    { unfold outcome in Hpending.
      destruct (isLoading (state w)) eqn:Hloading.
      - cbn [dispatch].
        destruct (render engine variant (state w)) as [view|] eqn:Hrender;
          [|reflexivity].
        rewrite (render_predict_disabled engine variant _ _ Hrender), Hloading.
        reflexivity.
      - destruct (error (state w)), (prediction (state w)); discriminate. }
    split; [exact Hclick|]. intro reply. rewrite Hclick. reflexivity.
Qed.

Lemma predict_button_single_flight_witness :
  let w := dispatch_all V8 Direct [ClickPredict] start in
  outcome (state w) = Some Pending /\
  dispatch V8 Direct w ClickPredict = w.
Proof.
  intro w. split; [reflexivity|].
  apply (predict_button_single_flight V8 Direct [ClickPredict]). reflexivity.
Defined.

(** C1 fails as stated.  A call of [handlePredict] in a state whose outcome
    is [Pending] sends a second request, so that two are in flight; and when
    the first then succeeds and the second fails, the state shows a value
    and a message together. *)
Lemma handlePredict_has_no_pending_guard :
  let w1 := call_handlePredict V8 Proxied start in
  let w2 := call_handlePredict V8 Proxied w1 in
  let success :=
    Responds
      (mkResponse 200 (Normal (Obj [("predicted_quality", Num (lit 62 (-1)))]))) in
  let failure := Rejects (mkException TypeError "Failed to fetch") in
  outcome (state w1) = Some Pending /\
  List.length (sent w1) = 1%nat /\
  List.length (sent w2) = 2%nat /\
  List.length (pending w2) = 2%nat /\
  outcome (state (resume V8 Proxied 0 success w1))
  = Some (Succeeded (lit 62 (-1))) /\
  outcome (state (resume V8 Proxied 0 failure
                    (resume V8 Proxied 0 success w2))) = None.
Proof. repeat split. Qed.

(** * Further properties of the page *)

(** ** Composition of the feature setters *)

Lemma spread_with_commutes (prev : Features) (a b : FeatureName)
  (x y : number) :
  a <> b ->
  spread_with (spread_with prev a x) b y
  = spread_with (spread_with prev b y) a x.
Proof. intro Hne. destruct a, b; solve [reflexivity | now elim Hne]. Qed.

Lemma spread_with_overwrites (prev : Features) (a : FeatureName)
  (x y : number) :
  spread_with (spread_with prev a x) a y = spread_with prev a y.
Proof. destruct a; reflexivity. Qed.

(** X1.  Slider changes of two different features commute: the state after
    both does not depend on the order of the two [onChange] events. *)
Theorem handleSliderChange_commutes (a b : FeatureName) (va vb : string)
  (st : State) :
  a <> b ->
  run (handleSliderChange b vb) (run (handleSliderChange a va) st)
  = run (handleSliderChange a va) (run (handleSliderChange b vb) st).
Proof.
  intro Hne.
  cbn [handleSliderChange run fold_left apply features prediction isLoading error].
  rewrite (spread_with_commutes _ a b _ _ Hne). reflexivity.
Qed.

Lemma handleSliderChange_commutes_witness :
  run (handleSliderChange Density "0.99")
      (run (handleSliderChange Alcohol "12.3") initial)
  = run (handleSliderChange Alcohol "12.3")
        (run (handleSliderChange Density "0.99") initial).
Proof.
  apply (handleSliderChange_commutes Alcohol Density "12.3" "0.99" initial).
  discriminate.
Defined.

(** X2.  On one feature the last change wins: a slider change overwrites
    an earlier change of the same feature, whatever the two values, and
    likewise a type change overwrites an earlier one; in particular each
    setter is idempotent. *)
Theorem setters_last_write_wins (a : FeatureName) (va vb : string)
  (x y : number) (st : State) :
  run (handleSliderChange a vb) (run (handleSliderChange a va) st)
  = run (handleSliderChange a vb) st /\
  run (handleTypeChange y) (run (handleTypeChange x) st)
  = run (handleTypeChange y) st /\
  run (handleTypeChange y) (run (handleSliderChange TypeWhite va) st)
  = run (handleTypeChange y) st.
Proof.
  cbn [handleSliderChange handleTypeChange run fold_left apply
       features prediction isLoading error].
  rewrite !spread_with_overwrites. repeat split.
Qed.

(** ** The two type buttons *)

Lemma eqb_zero_one_exclusive (x : number) :
  eqb x (lit 0 0) && eqb x (lit 1 0) = false.
Proof. destruct x as [s|s| |s m e]; try destruct s; reflexivity. Qed.

(** X3.  The Red and the White button are never highlighted together, and
    the label reads [White] exactly when the White button is highlighted
    and [Red] in every other case, also when [type_white] is neither 0 nor
    1 and no button is highlighted. *)
Theorem type_buttons_exclusive (variant : Variant) (features : Features) :
  exists red white,
    control (render_field variant features TypeWhite) = TypeButtons red white /\
    red && white = false /\
    label (render_field variant features TypeWhite)
    = "type_white (" ++ (if white then "White" else "Red") ++ ")" /\
    red = eqb (type_white features) (lit 0 0) /\
    white = eqb (type_white features) (lit 1 0).
Proof.
  do 2 eexists. split; [reflexivity|]. split; [apply eqb_zero_one_exclusive|].
  repeat split.
Qed.

(** ** What every run of [handlePredict] does *)

(** X5.  Whatever the network replies, a [predict()] returns normally:
    no exception leaves the handler, [isLoading] is false at the end, and
    the features are the ones it started with. *)
Theorem predict_always_settles (engine : Engine) (variant : Variant)
  (st : State) (reply : Reply) :
  snd (handlePredict engine variant (features st) (Some reply)) = Returned tt /\
  isLoading (predict engine variant st reply) = false /\
  features (predict engine variant st reply) = features st.
Proof.
  unfold predict.
  destruct (handlePredict_settled engine variant reply) as [tail [-> Htail]].
  rewrite handlePredict_suspended. cbn [fst snd].
  destruct Htail as [[quality ->]|[err [shown ->]]]; repeat split.
Qed.

(** X6.  At the end of a [predict()] a message and a value are never shown
    together: either no error is stored, or an error is stored and the
    prediction is [null]. *)
Theorem predict_value_or_message (engine : Engine) (variant : Variant)
  (st : State) (reply : Reply) :
  error (predict engine variant st reply) = None \/
  (prediction (predict engine variant st reply) = Null /\
   exists text, error (predict engine variant st reply) = Some text).
Proof.
  unfold predict.
  destruct (handlePredict_settled engine variant reply) as [tail [-> Htail]].
  rewrite handlePredict_suspended. cbn [fst].
  destruct Htail as [[quality ->]|[err [shown ->]]].
  - left. reflexivity.
  - right. split; [reflexivity|]. exists shown. reflexivity.
Qed.

(** X7.  [console.error] is called exactly on the failing runs: when the
    call that was just made is resumed with the reply, either no error is
    stored and the console is as before, or an error is stored and the
    console has received the one exception that was caught. *)
Theorem failures_are_logged (engine : Engine) (variant : Variant)
  (w : World) (reply : Reply) :
  let w' :=
    resume engine variant (List.length (pending w)) reply
      (call_handlePredict engine variant w) in
  (error (state w') = None /\ console w' = console w) \/
  (exists err text,
      error (state w') = Some text /\
      console w' = (console w ++ [err])%list).
Proof.
  intro w'. subst w'. unfold call_handlePredict, resume.
  rewrite handlePredict_suspended.
  cbn [pending]. rewrite pending_perform_all.
  rewrite nth_error_app2, Nat.sub_diag by apply Nat.le_refl.
  cbn [nth_error].
  destruct (handlePredict_settled engine variant reply) as [tail [-> Htail]].
  rewrite handlePredict_suspended. cbn [fst app after_fetch].
  destruct Htail as [[quality ->]|[err [shown ->]]].
  - left. split; reflexivity.
  - right. exists err, shown. split; reflexivity.
Qed.

(** ** Invariants of the page *)

Lemma predict_cases (engine : Engine) (variant : Variant) (st : State)
  (reply : Reply) :
  (exists quality,
      predict engine variant st reply
      = mkState (features st) quality false None) \/
  (exists text,
      predict engine variant st reply
      = mkState (features st) Null false (Some text)).
Proof.
  unfold predict.
  destruct (handlePredict_settled engine variant reply) as [tail [-> Htail]].
  rewrite handlePredict_suspended. cbn [fst].
  destruct Htail as [[quality ->]|[err [shown ->]]].
  - left. exists quality. reflexivity.
  - right. exists shown. reflexivity.
Qed.

Lemma features_call_handlePredict (engine : Engine) (variant : Variant)
  (w : World) :
  features (state (call_handlePredict engine variant w)) = features (state w).
Proof.
  unfold call_handlePredict. rewrite handlePredict_suspended. reflexivity.
Qed.

Lemma sent_call_handlePredict (engine : Engine) (variant : Variant)
  (w : World) :
  sent (call_handlePredict engine variant w)
  = (sent w ++
     [(endpoint variant,
       {| method := "POST";
          headers := [("Content-Type", "application/json")];
          body := JSON_stringify (payload (features (state w))) |})])%list.
Proof.
  unfold call_handlePredict. rewrite handlePredict_suspended. reflexivity.
Qed.

Lemma resume_keeps (engine : Engine) (variant : Variant) (i : nat)
  (reply : Reply) (w : World) :
  features (state (resume engine variant i reply w)) = features (state w) /\
  sent (resume engine variant i reply w) = sent w.
Proof.
  unfold resume. destruct (nth_error (pending w) i) as [captured|];
    [|split; reflexivity].
  destruct (handlePredict_settled engine variant reply) as [tail [-> Htail]].
  rewrite handlePredict_suspended. cbn [fst app after_fetch].
  destruct Htail as [[quality ->]|[err [shown ->]]]; split; reflexivity.
Qed.

Lemma type_white_spread_with (prev : Features) (name : FeatureName)
  (value : number) :
  name <> TypeWhite ->
  type_white (spread_with prev name value) = type_white prev.
Proof. intro Hne. destruct name; solve [reflexivity | now elim Hne]. Qed.

Lemma dispatch_type_white (engine : Engine) (variant : Variant) (w : World)
  (ev : Event) :
  type_white (features (state w)) = lit 0 0 \/
  type_white (features (state w)) = lit 1 0 ->
  type_white (features (state (dispatch engine variant w ev))) = lit 0 0 \/
  type_white (features (state (dispatch engine variant w ev))) = lit 1 0.
Proof.
  intro Hinv. destruct ev as [name value| | | |i reply]; cbn [dispatch].
  - destruct (render engine variant (state w)); [|exact Hinv].
    destruct name; try exact Hinv;
      cbn [handleSliderChange perform_all fold_left perform state apply features];
      rewrite type_white_spread_with by discriminate; exact Hinv.
  - destruct (render engine variant (state w)); [|exact Hinv].
    left. reflexivity.
  - destruct (render engine variant (state w)); [|exact Hinv].
    right. reflexivity.
  - destruct (render engine variant (state w)) as [view|]; [|exact Hinv].
    destruct (predict_disabled view); [exact Hinv|].
    rewrite features_call_handlePredict. exact Hinv.
  - rewrite (proj1 (resume_keeps engine variant i reply w)). exact Hinv.
Qed.

(** X4.  On the page [type_white] is always exactly 0 or exactly 1: after
    any sequence of slider changes, button clicks and settlements from the
    initial state, one of the two type buttons, and only one, is
    highlighted. *)
Theorem page_keeps_type_binary (engine : Engine) (variant : Variant)
  (events : list Event) :
  let w := dispatch_all engine variant events start in
  (type_white (features (state w)) = lit 0 0 \/
   type_white (features (state w)) = lit 1 0) /\
  (control (render_field variant (features (state w)) TypeWhite)
   = TypeButtons true false \/
   control (render_field variant (features (state w)) TypeWhite)
   = TypeButtons false true).
Proof.
  intro w.
  assert (Hinv : type_white (features (state w)) = lit 0 0 \/
                 type_white (features (state w)) = lit 1 0).
  { subst w. generalize start, (or_intror eq_refl
      : type_white (features (state start)) = lit 0 0 \/
        type_white (features (state start)) = lit 1 0).
    induction events as [|ev events IH]; intros w0 H0; [exact H0|].
    cbn [dispatch_all fold_left]. apply IH, dispatch_type_white, H0. }
  split; [exact Hinv|].
  cbn [render_field control read].
  destruct Hinv as [-> | ->]; [left|right]; reflexivity.
Qed.

(** X8.  The page talks to one address only, and only on a click on
    Predict: after any sequence of page events, every request that was sent
    is a POST to the endpoint of the page, with the JSON content type and a
    body; and in every world a slider change, a click on a type button and
    a settlement send nothing, while a click on Predict sends nothing or
    the one request built from the current features. *)
Theorem page_requests_go_to_endpoint (engine : Engine) (variant : Variant)
  (events : list Event) :
  Forall
    (fun request =>
       fst request = endpoint variant /\
       method (snd request) = "POST" /\
       headers (snd request) = [("Content-Type", "application/json")] /\
       exists text, body (snd request) = Some text)
    (sent (dispatch_all engine variant events start)) /\
  (forall w ev,
      match ev with
      | ClickPredict =>
          sent (dispatch engine variant w ev) = sent w \/
          sent (dispatch engine variant w ev)
          = (sent w ++
             [(endpoint variant,
               {| method := "POST";
                  headers := [("Content-Type", "application/json")];
                  body := JSON_stringify
                            (spec_payload (features (state w))) |})])%list
      | Change _ _ | ClickRed | ClickWhite | Settle _ _ =>
          sent (dispatch engine variant w ev) = sent w
      end).
Proof.
  assert (Hstep : forall w ev,
             match ev with
             | ClickPredict =>
                 sent (dispatch engine variant w ev) = sent w \/
                 sent (dispatch engine variant w ev)
                 = (sent w ++
                    [(endpoint variant,
                      {| method := "POST";
                         headers := [("Content-Type", "application/json")];
                         body := JSON_stringify
                                   (spec_payload (features (state w))) |})])%list
             | Change _ _ | ClickRed | ClickWhite | Settle _ _ =>
                 sent (dispatch engine variant w ev) = sent w
             end).
  { intros w ev. destruct ev as [name value| | | |i reply]; cbn [dispatch].
    - destruct (render engine variant (state w)); [|reflexivity].
      destruct name; try reflexivity;
        rewrite sent_perform_all; apply app_nil_r.
    - destruct (render engine variant (state w)); [|reflexivity].
      rewrite sent_perform_all. apply app_nil_r.
    - destruct (render engine variant (state w)); [|reflexivity].
      rewrite sent_perform_all. apply app_nil_r.
    - destruct (render engine variant (state w)) as [view|];
        [|left; reflexivity].
      destruct (predict_disabled view); [left; reflexivity|].
      right. apply sent_call_handlePredict.
    - apply (proj2 (resume_keeps engine variant i reply w)). }
  split; [|exact Hstep].
  match goal with
  | |- Forall ?P _ => assert (Hstart : Forall P (sent start)) by constructor
  end.
  revert Hstart. generalize start.
  induction events as [|ev events IH]; intros w Hw; [exact Hw|].
  cbn [dispatch_all fold_left]. apply IH.
  pose proof (Hstep w ev) as Hsent.
  destruct ev as [name value| | | |i reply];
    try (rewrite Hsent; exact Hw).
  destruct Hsent as [-> | ->]; [exact Hw|].
  apply Forall_app. split; [exact Hw|].
  constructor; [|constructor]. cbn [fst snd method headers body].
  repeat split. eexists. reflexivity.
Qed.

(** X9.  While a request is in flight the page shows neither an old value
    nor an old message: the Predict button is disabled and reads
    [Predicting...], and the error line and the prediction panel are
    absent. *)
Theorem loading_page_shows_nothing (engine : Engine) (variant : Variant)
  (events : list Event) :
  let w := dispatch_all engine variant events start in
  isLoading (state w) = true ->
  exists view,
    render engine variant (state w) = Normal view /\
    predict_disabled view = true /\
    predict_label view = "Predicting..." /\
    error_line view = None /\
    prediction_panel view = None.
Proof.
  intros w Hloading.
  destruct (dispatch_all_pending_clean engine variant events start)
    as [Herror Hprediction]; [reflexivity|discriminate|exact Hloading|].
  fold w in Herror, Hprediction.
  unfold render. rewrite Hprediction, Herror, Hloading. cbn [render_prediction].
  eexists. split; [reflexivity|]. repeat split.
Qed.

Lemma loading_page_shows_nothing_witness :
  exists view,
    render V8 Direct
      (state (dispatch_all V8 Direct [Change Alcohol "9"; ClickPredict] start))
    = Normal view /\
    predict_disabled view = true /\
    predict_label view = "Predicting..." /\
    error_line view = None /\
    prediction_panel view = None.
Proof.
  apply (loading_page_shows_nothing V8 Direct [Change Alcohol "9"; ClickPredict]).
  reflexivity.
Defined.

(** ** What the page shows once the reply has come *)

(** X10.  When the request in flight fails, the page shows the stored
    message behind [Error: ] and no prediction panel, and the button is
    enabled again; a failure whose message is the empty string shows no
    error line at all. *)
Theorem settled_failure_is_displayed (engine : Engine) (variant : Variant)
  (events : list Event) (reply : Reply) (text : string) :
  let w := dispatch_all engine variant events start in
  isLoading (state w) = true ->
  error (predict engine variant (state w) reply) = Some text ->
  exists view,
    render engine variant (state (dispatch engine variant w (Settle 0 reply)))
    = Normal view /\
    error_line view
    = (if String.eqb text "" then None else Some ("Error: " ++ text)) /\
    prediction_panel view = None /\
    predict_disabled view = false /\
    predict_label view = "Predict Quality".
Proof.
  intros w Hloading Herror.
  pose proof (settlement_is_predict engine variant events reply Hloading)
    as Hsettle.
  cbv zeta in Hsettle. fold w in Hsettle. rewrite Hsettle.
  destruct (predict_cases engine variant (state w) reply)
    as [[quality Heq]|[shown Heq]]; rewrite Heq in Herror |- *.
  - discriminate Herror.
  - injection Herror as ->. eexists. split; [reflexivity|]. repeat split.
Qed.

Lemma settled_failure_is_displayed_witness :
  (exists view,
      render V8 Proxied
        (state (dispatch_all V8 Proxied
                  [ClickPredict;
                   Settle 0 (Rejects (mkException TypeError "Failed to fetch"))]
                  start))
      = Normal view /\
      error_line view = Some "Error: Failed to fetch") /\
  (exists view,
      render V8 Proxied
        (state (dispatch_all V8 Proxied
                  [ClickPredict; Settle 0 (Rejects (mkException TypeError ""))]
                  start))
      = Normal view /\
      error_line view = None).
Proof.
  split.
  - destruct (settled_failure_is_displayed V8 Proxied [ClickPredict]
                (Rejects (mkException TypeError "Failed to fetch"))
                "Failed to fetch" eq_refl eq_refl)
      as [view [Hview [Hline _]]].
    exists view. split; [exact Hview|exact Hline].
  - destruct (settled_failure_is_displayed V8 Proxied [ClickPredict]
                (Rejects (mkException TypeError "")) "" eq_refl eq_refl)
      as [view [Hview [Hline _]]].
    exists view. split; [exact Hview|exact Hline].
Defined.

(** X11.  When the request in flight is answered with a success status and
    a numeric [predicted_quality], the page shows that number with one
    decimal in the prediction panel and no error line, and the button is
    enabled again. *)
Theorem settled_success_is_displayed (engine : Engine) (variant : Variant)
  (events : list Event) (response : Response)
  (members : list (string * Value)) (q : number) :
  let w := dispatch_all engine variant events start in
  isLoading (state w) = true ->
  ok response = true ->
  json response = Normal (Obj members) ->
  own_property "predicted_quality" members = Some (Num q) ->
  exists view,
    render engine variant
      (state (dispatch engine variant w (Settle 0 (Responds response))))
    = Normal view /\
    prediction_panel view = Some (toFixed q 1) /\
    error_line view = None /\
    predict_disabled view = false /\
    predict_label view = "Predict Quality".
Proof.
  intros w Hloading Hok Hjson Hmember.
  pose proof (settlement_is_predict engine variant events (Responds response)
                Hloading) as Hsettle.
  cbv zeta in Hsettle. fold w in Hsettle. rewrite Hsettle.
  rewrite (predict_success engine variant (state w) response (Obj members)
             (Num q) Hok Hjson).
  - eexists. split; [reflexivity|]. repeat split.
  - unfold get. rewrite Hmember. reflexivity.
Qed.

Lemma settled_success_is_displayed_witness :
  let response :=
    mkResponse 200 (Normal (Obj [("predicted_quality", Num (lit 625 (-2)))])) in
  exists view,
    render V8 Direct
      (state (dispatch_all V8 Direct [ClickPredict; Settle 0 (Responds response)]
                start))
    = Normal view /\
    prediction_panel view = Some "6.3".
Proof.
  intro response.
  destruct (settled_success_is_displayed V8 Direct [ClickPredict] response
              [("predicted_quality", Num (lit 625 (-2)))] (lit 625 (-2))
              eq_refl eq_refl eq_refl eq_refl)
    as [view [Hview [Hpanel _]]].
  exists view. split; [exact Hview|]. rewrite Hpanel. vm_compute. reflexivity.
Defined.

(** X12.  There is no limit on attempts: once the request in flight has
    settled, whatever the reply, a page that renders takes a new click on
    Predict, which sends one more request, carrying the features of that
    moment, and makes the page load again. *)
Theorem settled_page_accepts_new_click (engine : Engine) (variant : Variant)
  (events : list Event) (reply : Reply) (view : View) :
  let w := dispatch_all engine variant events start in
  let w' := dispatch engine variant w (Settle 0 reply) in
  isLoading (state w) = true ->
  render engine variant (state w') = Normal view ->
  sent (dispatch engine variant w' ClickPredict)
  = (sent w ++
     [(endpoint variant,
       {| method := "POST";
          headers := [("Content-Type", "application/json")];
          body := JSON_stringify (spec_payload (features (state w))) |})])%list /\
  isLoading (state (dispatch engine variant w' ClickPredict)) = true /\
  List.length (pending (dispatch engine variant w' ClickPredict)) = 1%nat.
Proof.
  intros w w' Hloading Hrender.
  assert (Hstate : state w' = predict engine variant (state w) reply).
  { apply (settlement_is_predict engine variant events reply Hloading). }
  assert (Hidle : isLoading (state w') = false).
  { rewrite Hstate.
    destruct (predict_cases engine variant (state w) reply)
      as [[quality ->]|[shown ->]]; reflexivity. }
  assert (Hinv : List.length (pending w')
                 = (if isLoading (state w') then 1%nat else 0%nat)).
  { apply dispatch_single_flight, dispatch_all_single_flight. reflexivity. }
  rewrite Hidle in Hinv.
  cbn [dispatch]. rewrite Hrender.
  rewrite (render_predict_disabled engine variant _ _ Hrender), Hidle.
  rewrite sent_call_handlePredict.
  unfold w' at 1 2. cbn [dispatch].
  rewrite (proj2 (resume_keeps engine variant 0 reply w)).
  rewrite (proj1 (resume_keeps engine variant 0 reply w)).
  split; [reflexivity|].
  unfold call_handlePredict. rewrite handlePredict_suspended.
  cbn [state pending]. rewrite state_perform_all, pending_perform_all.
  split; [reflexivity|].
  rewrite List.length_app, Hinv. reflexivity.
Qed.

Lemma settled_page_accepts_new_click_witness :
  let failure := Rejects (mkException TypeError "Failed to fetch") in
  List.length
    (sent (dispatch_all V8 Proxied
             [ClickPredict; Settle 0 failure; ClickPredict] start))
  = 2%nat.
Proof.
  intro failure.
  destruct (render V8 Proxied
              (state (dispatch V8 Proxied
                        (dispatch_all V8 Proxied [ClickPredict] start)
                        (Settle 0 failure)))) as [view|err] eqn:Hrender;
    [|discriminate Hrender].
  change (dispatch_all V8 Proxied
            [ClickPredict; Settle 0 failure; ClickPredict] start)
    with (dispatch V8 Proxied
            (dispatch V8 Proxied
               (dispatch_all V8 Proxied [ClickPredict] start)
               (Settle 0 failure))
            ClickPredict).
  rewrite (proj1 (settled_page_accepts_new_click V8 Proxied [ClickPredict]
                    failure view eq_refl Hrender)).
  reflexivity.
Defined.

(** ** Edge cases of the reply *)

(** X13.  On the page that calls the service directly the network hint is
    not reserved to transport failures: when the server has responded but
    reading the body rejects with a [TypeError] whose message contains
    [fetch], the page shows the same hint, whatever the status. *)
Theorem direct_page_hint_on_body_failure (engine : Engine) (st : State)
  (response : Response) (err : Exception) :
  json response = Throw err ->
  instanceof_TypeError err = true ->
  includes (message err) "fetch" = true ->
  outcome (predict engine Direct st (Responds response))
  = Some (Failed cors_hint).
Proof.
  intros Hjson Hclass Hmessage.
  rewrite (predict_unparsable engine Direct st response err Hjson).
  rewrite Hclass, Hmessage. reflexivity.
Qed.

Lemma direct_page_hint_on_body_failure_witness :
  outcome
    (predict V8 Direct initial
       (Responds (mkResponse 200
                    (Throw (mkException TypeError "Failed to fetch")))))
  = Some (Failed cors_hint).
Proof.
  apply (direct_page_hint_on_body_failure V8 initial
           (mkResponse 200 (Throw (mkException TypeError "Failed to fetch")))
           (mkException TypeError "Failed to fetch"));
    reflexivity.
Defined.

(** X14.  The [error] member of a failure body is shown through its string
    conversion: an object member gives the text [[object Object]], the
    member [true] gives [true], and an array member gives its elements
    joined by commas. *)
Theorem failure_reply_converts_error_member (engine : Engine)
  (variant : Variant) (st : State) (response : Response)
  (members : list (string * Value)) :
  ok response = false ->
  json response = Normal (Obj members) ->
  let st' := predict engine variant st (Responds response) in
  (forall nested,
      own_property "error" members = Some (Obj nested) ->
      own_property "toString" nested = None ->
      outcome st' = Some (Failed "[object Object]")) /\
  (own_property "error" members = Some (Bool true) ->
   outcome st' = Some (Failed "true")) /\
  (forall first second,
      own_property "error" members = Some (Arr [Str first; Str second]) ->
      outcome st' = Some (Failed (first ++ "," ++ second))).
Proof.
  intros Hok Hjson st'. subst st'. repeat split.
  - intros nested Hmember Hnested.
    rewrite (predict_application_error engine variant st response
               (Obj members) (Obj nested) "[object Object]" Hok Hjson);
      [reflexivity| |].
    + unfold get. rewrite Hmember. reflexivity.
    + unfold or_else. cbn [ToBoolean].
      change (ToString engine (Obj nested))
        with (match own_property "toString" nested with
              | Some _ =>
                  @Throw string
                    (mkException TypeError (not_primitive_message engine))
              | None => Normal "[object Object]"
              end).
      rewrite Hnested. reflexivity.
  - intros Hmember.
    rewrite (predict_application_error engine variant st response
               (Obj members) (Bool true) "true" Hok Hjson);
      [reflexivity| |reflexivity].
    unfold get. rewrite Hmember. reflexivity.
  - intros first second Hmember.
    rewrite (predict_application_error engine variant st response
               (Obj members) (Arr [Str first; Str second])
               (first ++ "," ++ second) Hok Hjson);
      [reflexivity| |reflexivity].
    unfold get. rewrite Hmember. reflexivity.
Qed.

Lemma failure_reply_converts_error_member_witness :
  let response :=
    mkResponse 422
      (Normal (Obj [("error", Obj [("code", Num (lit 7 0))])])) in
  outcome (predict V8 Proxied initial (Responds response))
  = Some (Failed "[object Object]").
Proof.
  intro response.
  apply (proj1 (failure_reply_converts_error_member V8 Proxied initial
                  response [("error", Obj [("code", Num (lit 7 0))])]
                  eq_refl eq_refl)
           [("code", Num (lit 7 0))]);
    reflexivity.
Defined.

(** X15.  A body that is the JSON value [null] makes the run fail whatever
    the status: reading [error] (non-success status) or [predicted_quality]
    (success status) of [null] throws, and the page shows the engine's
    message for that read, or on the direct page the network hint if that
    message contains [fetch]. *)
Theorem null_body_fails (engine : Engine) (variant : Variant) (st : State)
  (response : Response) :
  json response = Normal Null ->
  let text :=
    nullish_read_message engine "null"
      (if ok response then "predicted_quality" else "error") in
  outcome (predict engine variant st (Responds response))
  = Some (Failed
            match variant with
            | Proxied => text
            | Direct => if includes text "fetch" then cors_hint else text
            end).
Proof.
  intros Hjson text. subst text.
  destruct response as [code body]. cbn [json] in Hjson. subst body.
  unfold predict, handlePredict, await_fetch, await_json.
  cbn [json lift bind ret throw emit].
  destruct (ok {| status := code; json := Normal Null |});
    cbn [negb lift bind ret throw emit get try_catch_finally];
    unfold get; cbn [lift bind ret throw emit try_catch_finally];
    rewrite catch_clause_effects; destruct variant; reflexivity.
Qed.

Lemma null_body_fails_witness :
  outcome (predict V8 Direct initial (Responds (mkResponse 200 (Normal Null))))
  = Some (Failed "Cannot read properties of null (reading 'predicted_quality')")
  /\
  outcome (predict V8 Proxied initial (Responds (mkResponse 500 (Normal Null))))
  = Some (Failed "Cannot read properties of null (reading 'error')").
Proof.
  split.
  - apply (null_body_fails V8 Direct initial (mkResponse 200 (Normal Null))).
    reflexivity.
  - apply (null_body_fails V8 Proxied initial (mkResponse 500 (Normal Null))).
    reflexivity.
Defined.

(** X16.  A success reply whose [predicted_quality] is [null] leaves the
    page as if nothing had been asked: no value, no message, not loading;
    the outcome is [Idle] and the page renders neither panel nor error
    line. *)
Theorem null_quality_leaves_idle (engine : Engine) (variant : Variant)
  (st : State) (response : Response) (members : list (string * Value)) :
  ok response = true ->
  json response = Normal (Obj members) ->
  own_property "predicted_quality" members = Some Null ->
  let st' := predict engine variant st (Responds response) in
  outcome st' = Some Idle /\
  exists view,
    render engine variant st' = Normal view /\
    prediction_panel view = None /\
    error_line view = None /\
    predict_disabled view = false.
Proof.
  intros Hok Hjson Hmember st'. subst st'.
  rewrite (predict_success engine variant st response (Obj members) Null
             Hok Hjson).
  - split; [reflexivity|]. eexists. split; [reflexivity|]. repeat split.
  - unfold get. rewrite Hmember. reflexivity.
Qed.

Lemma null_quality_leaves_idle_witness :
  outcome
    (predict V8 Proxied initial
       (Responds (mkResponse 200 (Normal (Obj [("predicted_quality", Null)])))))
  = Some Idle.
Proof.
  apply (null_quality_leaves_idle V8 Proxied initial
           (mkResponse 200 (Normal (Obj [("predicted_quality", Null)])))
           [("predicted_quality", Null)]);
    reflexivity.
Defined.

(** X17.  A success reply stores its [predicted_quality] member whatever
    its type; when the member is a string, a boolean, an array or an object,
    no error is stored and the next render throws, because the value has no
    [toFixed] method. *)
Theorem non_numeric_quality_breaks_render (engine : Engine)
  (variant : Variant) (st : State) (response : Response)
  (members : list (string * Value)) (quality : Value) :
  ok response = true ->
  json response = Normal (Obj members) ->
  own_property "predicted_quality" members = Some quality ->
  let st' := predict engine variant st (Responds response) in
  prediction st' = quality /\
  error st' = None /\
  match quality with
  | Bool _ | Str _ | Arr _ | Obj _ =>
      render engine variant st'
      = Throw (mkException TypeError
                 (not_function_message engine "prediction.toFixed"))
  | _ => True
  end.
Proof.
  intros Hok Hjson Hmember st'. subst st'.
  rewrite (predict_success engine variant st response (Obj members) quality
             Hok Hjson).
  - repeat split. destruct quality; exact I || reflexivity.
  - unfold get. rewrite Hmember. reflexivity.
Qed.

Lemma non_numeric_quality_breaks_render_witness :
  let st' :=
    predict V8 Direct initial
      (Responds
         (mkResponse 200 (Normal (Obj [("predicted_quality", Str "6.2")])))) in
  prediction st' = Str "6.2" /\
  render V8 Direct st'
  = Throw (mkException TypeError "prediction.toFixed is not a function").
Proof.
  intro st'.
  destruct (non_numeric_quality_breaks_render V8 Direct initial
              (mkResponse 200 (Normal (Obj [("predicted_quality", Str "6.2")])))
              [("predicted_quality", Str "6.2")] (Str "6.2")
              eq_refl eq_refl eq_refl)
    as [Hvalue [_ Hrender]].
  split; [exact Hvalue|exact Hrender].
Defined.

(** ** The two pages side by side *)

(** X18.  On both pages every slider range contains the initial value of
    its feature and has a positive step; the two pages have the same
    minima, and no maximum of the direct page exceeds that of the proxied
    page. *)
Theorem ranges_contain_initial_values (variant : Variant)
  (name : FeatureName) :
  leb (min (featureRanges variant name)) (read (features initial) name) = true /\
  leb (read (features initial) name) (max (featureRanges variant name)) = true /\
  ltb (lit 0 0) (step (featureRanges variant name)) = true /\
  min (featureRanges Direct name) = min (featureRanges Proxied name) /\
  leb (max (featureRanges Direct name)) (max (featureRanges Proxied name))
  = true.
Proof. destruct variant, name; vm_compute; repeat split. Qed.

(** X19.  The two pages treat every reply alike, except that the direct
    page replaces the message by its network hint: for every state and
    reply, either the direct page stores the hint, or both pages end in the
    same state. *)
Theorem pages_differ_by_hint_only (engine : Engine) (st : State)
  (reply : Reply) :
  error (predict engine Direct st reply) = Some cors_hint \/
  predict engine Direct st reply = predict engine Proxied st reply.
Proof.
  unfold predict, handlePredict, await_fetch, await_json.
  destruct reply as [err|[code body]];
    cbn [json lift bind ret throw emit try_catch_finally].
  - rewrite !catch_clause_effects.
    destruct (instanceof_TypeError err && includes (message err) "fetch");
      [left|right]; reflexivity.
  - destruct body as [data|err];
      cbn [json lift bind ret throw emit try_catch_finally].
    + destruct (ok {| status := code; json := Normal data |}); cbn [negb].
      * destruct (get engine data "predicted_quality") as [quality|err];
          cbn [lift bind ret throw emit try_catch_finally].
        -- right. reflexivity.
        -- rewrite !catch_clause_effects.
           destruct (instanceof_TypeError err && includes (message err) "fetch");
             [left|right]; reflexivity.
      * destruct (get engine data "error") as [reason|err];
          cbn [lift bind ret throw emit try_catch_finally].
        -- destruct (ToString engine (or_else reason (Str generic_failure)))
             as [text|err];
             cbn [lift bind ret throw emit try_catch_finally];
             rewrite !catch_clause_effects.
           ++ right. reflexivity.
           ++ destruct (instanceof_TypeError err
                        && includes (message err) "fetch");
                [left|right]; reflexivity.
        -- rewrite !catch_clause_effects.
           destruct (instanceof_TypeError err && includes (message err) "fetch");
             [left|right]; reflexivity.
    + rewrite !catch_clause_effects.
      destruct (instanceof_TypeError err && includes (message err) "fetch");
        [left|right]; reflexivity.
Qed.

(** ** Sliders and the render *)

(** X20.  The range inputs are controlled by the state: after a change of
    the slider of [name] its input is redrawn at the parsed value, NaN
    included, with that value in the label, and the field of every other
    feature is drawn as before. *)
Theorem changed_slider_is_redrawn (variant : Variant) (name : FeatureName)
  (value : string) (st : State) :
  name <> TypeWhite ->
  let st' := run (handleSliderChange name value) st in
  render_field variant (features st') name
  = {| label :=
         key name ++ " (" ++
         toFixed (parseFloat value)
           (if ltb (step (featureRanges variant name)) (lit 1 (-2))
            then 4 else 2)
         ++ ")";
       control :=
         RangeInput (key name)
           (min (featureRanges variant name))
           (max (featureRanges variant name))
           (step (featureRanges variant name))
           (parseFloat value) |} /\
  forall other,
    other <> name ->
    render_field variant (features st') other
    = render_field variant (features st) other.
Proof.
  intros Hslider st'. subst st'.
  cbn [handleSliderChange run fold_left apply features]. split.
  - destruct name; solve [reflexivity | now elim Hslider].
  - intros other Hother.
    destruct name, other; solve [reflexivity | now elim Hother].
Qed.

Lemma changed_slider_is_redrawn_witness :
  label (render_field Proxied
           (features (run (handleSliderChange Density "0.99123") initial))
           Density)
  = "density (0.9912)" /\
  label (render_field Proxied
           (features (run (handleSliderChange Density "abc") initial))
           Density)
  = "density (NaN)".
Proof.
  split.
  - rewrite (proj1 (changed_slider_is_redrawn Proxied Density "0.99123" initial
                      ltac:(discriminate))).
    vm_compute. reflexivity.
  - rewrite (proj1 (changed_slider_is_redrawn Proxied Density "abc" initial
                      ltac:(discriminate))).
    vm_compute. reflexivity.
Defined.

Lemma resume_first (engine : Engine) (variant : Variant) (reply : Reply) :
  exists tail,
    (forall w rest captured,
        pending w = captured :: rest ->
        state (resume engine variant 0 reply w) = run tail (state w)) /\
    ((exists quality, tail = [SetPrediction quality; SetIsLoading false]) \/
     (exists err shown,
         tail = [ConsoleError err; SetError (Some shown); SetIsLoading false])).
Proof.
  destruct (handlePredict_settled engine variant reply) as [tail [Heq Htail]].
  exists tail. split; [|exact Htail].
  intros w rest captured Hpending. unfold resume. rewrite Hpending.
  cbn [nth_error]. rewrite Heq, handlePredict_suspended.
  cbn [fst app after_fetch]. rewrite state_perform_all. reflexivity.
Qed.

(** X21.  The sliders stay live while a request is in flight, and a change
    made then commutes with the settlement: it alters neither the request
    that was sent nor what the reply stores, and the reply does not undo
    it. *)
Theorem change_in_flight_commutes (engine : Engine) (variant : Variant)
  (events : list Event) (name : FeatureName) (value : string)
  (reply : Reply) :
  let w := dispatch_all engine variant events start in
  isLoading (state w) = true ->
  name <> TypeWhite ->
  state (dispatch engine variant
           (dispatch engine variant w (Change name value)) (Settle 0 reply))
  = run (handleSliderChange name value)
        (state (dispatch engine variant w (Settle 0 reply))) /\
  sent (dispatch engine variant
          (dispatch engine variant w (Change name value)) (Settle 0 reply))
  = sent w.
Proof.
  intros w Hloading Hslider.
  assert (Hinv : List.length (pending w)
                 = (if isLoading (state w) then 1%nat else 0%nat)).
  { apply dispatch_all_single_flight. reflexivity. }
  destruct (dispatch_all_pending_clean engine variant events start)
    as [Herror Hprediction]; [reflexivity|discriminate|exact Hloading|].
  fold w in Herror, Hprediction.
  rewrite Hloading in Hinv.
  destruct (pending w) as [|captured rest] eqn:Hpending; [discriminate Hinv|].
  assert (Hchange : dispatch engine variant w (Change name value)
                    = perform_all (handleSliderChange name value) w).
  { cbn [dispatch]. unfold render. rewrite Hprediction.
    cbn [render_prediction]. destruct name; solve [reflexivity | now elim Hslider]. }
  rewrite Hchange. cbn [dispatch]. split.
  - destruct (resume_first engine variant reply) as [tail [Hresume Htail]].
    rewrite (Hresume (perform_all (handleSliderChange name value) w)
               rest captured), (Hresume w rest captured Hpending).
    + rewrite state_perform_all.
      destruct Htail as [[quality ->]|[err [shown ->]]]; reflexivity.
    + rewrite pending_perform_all. exact Hpending.
  - rewrite (proj2 (resume_keeps engine variant 0 reply _)).
    rewrite sent_perform_all. cbn [handleSliderChange fetch_calls].
    apply app_nil_r.
Qed.

Lemma change_in_flight_commutes_witness :
  let reply :=
    Responds
      (mkResponse 200 (Normal (Obj [("predicted_quality", Num (lit 5 0))]))) in
  let w :=
    dispatch_all V8 Proxied
      [ClickPredict; Change Alcohol "9"; Settle 0 reply] start in
  alcohol (features (state w)) = lit 9 0 /\
  prediction (state w) = Num (lit 5 0) /\
  List.length (sent w) = 1%nat.
Proof.
  intros reply w.
  destruct (change_in_flight_commutes V8 Proxied [ClickPredict] Alcohol "9"
              reply eq_refl ltac:(discriminate)) as [Hstate Hsent].
  change (dispatch V8 Proxied
            (dispatch V8 Proxied (dispatch_all V8 Proxied [ClickPredict] start)
               (Change Alcohol "9"))
            (Settle 0 reply)) with w in Hstate, Hsent.
  rewrite Hstate, Hsent. repeat split.
Defined.
